(** * Image ingestion utilities of [wab/client/dom-utils.ts]

    A shallow embedding of the image pipeline of [dom-utils.ts]: the GIF
    inspector [isAnimatedGif], the data-URL sanitizer
    [sanitizeImageDataUrl], the classifier [deriveImageAssetTypeAndUri],
    [ResizableImage.tryDownscale] and the upload entry point
    [maybeUploadImage], followed by the properties stated about them.

    JavaScript numbers that hold byte values, offsets and pixel sizes are
    modelled as [Z], and aspect ratios as the rationals those doubles
    are, in [Q], with their product rounded to binary64; strings as
    [string]; a thrown exception or a rejected promise as the [Throw]
    case of [Completion]. Functions with effects return the events they emit
    together with their completion; a method of [ResizableImage] also
    threads the fields of [this]. The modules [dom-utils.ts] imports and
    the browser services it calls are the fields of the class [Platform]
    and of the record [AppCtx]. *)

From Stdlib Require Import ZArith Lia Ascii String QArith Qround Qabs.
From stdpp Require Import base option list strings gmap sets.

Local Open Scope Z_scope.

(** ** Completions: a value, or a thrown exception *)

Inductive Exn : Type :=
| RangeError
| InvalidCharacterError
| Thrown (message : string).

Inductive Completion (A : Type) : Type :=
| Normal (a : A)
| Throw (e : Exn).
Arguments Normal {A} a.
Arguments Throw {A} e.

#[global] Instance Completion_ret : MRet Completion := @Normal.
#[global] Instance Completion_bind : MBind Completion :=
  fun A B f c => match c with Normal a => f a | Throw e => Throw e end.

(** JavaScript truthiness of a number that is not NaN. *)
Definition truthy (n : Z) : bool := negb (n =? 0).

(** ** [window.atob]: the forgiving base64 decoder of the HTML standard *)

Module Base64.

Definition is_ascii_whitespace (c : ascii) : bool :=
  let n := N_of_ascii c in
  ((n =? 9) || (n =? 10) || (n =? 12) || (n =? 13) || (n =? 32))%N.

Definition sextet (c : ascii) : option Z :=
  let n := Z.of_N (N_of_ascii c) in
  if (65 <=? n) && (n <=? 90) then Some (n - 65)
  else if (97 <=? n) && (n <=? 122) then Some (n - 71)
  else if (48 <=? n) && (n <=? 57) then Some (n + 4)
  else if n =? 43 then Some 62
  else if n =? 47 then Some 63
  else None.

Definition is_equals (c : ascii) : bool := (N_of_ascii c =? 61)%N.

(** Removes one or two trailing [=] from data whose length is a multiple
    of four. *)
Definition strip_padding (data : list ascii) : list ascii :=
  if (Z.of_nat (length data) mod 4 =? 0) then
    match reverse data with
    | a :: b :: rest =>
        if is_equals a then
          if is_equals b then reverse rest else reverse (b :: rest)
        else data
    | _ => data
    end
  else data.

(** Four sextets give three bytes; a tail of three sextets gives two bytes
    and a tail of two gives one, the spare low bits being dropped. *)
Fixpoint decode_sextets (l : list Z) : list Z :=
  match l with
  | a :: b :: c :: d :: rest =>
      let n := ((a * 64 + b) * 64 + c) * 64 + d in
      n / 65536 :: (n / 256) mod 256 :: n mod 256 :: decode_sextets rest
  | [a; b; c] =>
      let n := (a * 64 + b) * 64 + c in
      [n / 1024; (n / 4) mod 256]
  | [a; b] => [(a * 64 + b) / 16]
  | _ => []
  end.

Definition string_of_codes (l : list Z) : string :=
  string_of_list_ascii (map (fun n => ascii_of_N (Z.to_N n)) l).

Definition atob (s : string) : Completion string :=
  let data := filter (fun c => is_ascii_whitespace c = false)
                     (list_ascii_of_string s) in
  let data := strip_padding data in
  if Z.of_nat (length data) mod 4 =? 1 then Throw InvalidCharacterError
  else match mapM sextet data with
       | None => Throw InvalidCharacterError
       | Some sx => Normal (string_of_codes (decode_sextets sx))
       end.

(** [window.btoa] on a binary string. *)
Definition sextet_char (n : Z) : ascii :=
  ascii_of_N (Z.to_N (if n <? 26 then n + 65
                      else if n <? 52 then n + 71
                      else if n <? 62 then n - 4
                      else if n =? 62 then 43 else 47)).

Fixpoint encode_bytes (l : list Z) : list ascii :=
  match l with
  | a :: b :: c :: rest =>
      let n := (a * 256 + b) * 256 + c in
      sextet_char (n / 262144) :: sextet_char ((n / 4096) mod 64)
        :: sextet_char ((n / 64) mod 64) :: sextet_char (n mod 64)
        :: encode_bytes rest
  | [a; b] =>
      let n := (a * 256 + b) * 4 in
      [sextet_char (n / 4096); sextet_char ((n / 64) mod 64);
       sextet_char (n mod 64); "="%char]
  | [a] =>
      let n := a * 16 in
      [sextet_char (n / 64); sextet_char (n mod 64); "="%char; "="%char]
  | [] => []
  end.

Definition btoa (s : string) : string :=
  string_of_list_ascii
    (encode_bytes (map (fun c => Z.of_N (N_of_ascii c))
                       (list_ascii_of_string s))).

End Base64.

(** [String.prototype.charCodeAt] over a whole binary string. *)
Definition charCodes (s : string) : list Z :=
  map (fun c => Z.of_N (N_of_ascii c)) (list_ascii_of_string s).

(** ** [DataView] over a byte buffer *)

Record DataView : Type := mkDataView {
  dv_buffer : list Z;
  dv_byteOffset : nat
}.

Definition new_DataView (buffer : list Z) (byteOffset : nat)
  : Completion DataView :=
  if decide (byteOffset <= length buffer)%nat
  then Normal (mkDataView buffer byteOffset)
  else Throw RangeError.

Definition getUint8 (dv : DataView) (i : Z) : Completion Z :=
  if 0 <=? i then
    match drop (dv_byteOffset dv) (dv_buffer dv) !! Z.to_nat i with
    | Some b => Normal b
    | None => Throw RangeError
    end
  else Throw RangeError.

(** [getUint16] without a [littleEndian] argument reads big-endian. *)
Definition getUint16 (dv : DataView) (i : Z) : Completion Z :=
  if 0 <=? i then
    let view := drop (dv_byteOffset dv) (dv_buffer dv) in
    match view !! Z.to_nat i, view !! Z.to_nat (i + 1) with
    | Some hi, Some lo => Normal (hi * 256 + lo)
    | _, _ => Throw RangeError
    end
  else Throw RangeError.

(** ** The GIF inspector *)

(** [dataUrl.replace(/^[^,]*,/, "")] *)
Fixpoint after_first_comma (s : string) : option string :=
  match s with
  | EmptyString => None
  | String c rest =>
      if Ascii.eqb c "," then Some rest else after_first_comma rest
  end.

Definition strip_data_url_prefix (dataUrl : string) : string :=
  default dataUrl (after_first_comma dataUrl).

Definition HEADER_LEN : nat := 6.
Definition LOGICAL_SCREEN_DESC_LEN : nat := 7.

(** [extensionIntroducer & 0x21 && graphicsConrolLabel & 0xf9] *)
Definition extensionCheck (extensionIntroducer graphicsConrolLabel : Z)
  : bool :=
  truthy (Z.land extensionIntroducer 0x21)
  && truthy (Z.land graphicsConrolLabel 0xf9).

Definition isAnimatedGif (dataUrl : string) : Completion bool :=
  let base64 := strip_data_url_prefix dataUrl in
  binaryString ← Base64.atob base64;
  let bytes := charCodes binaryString in
  dv ← new_DataView bytes (HEADER_LEN + LOGICAL_SCREEN_DESC_LEN - 3);
  globalColorTable ← getUint8 dv 0;
  let globalColorTableSize :=
    if truthy (Z.land globalColorTable 0x80)
    then 3 * 2 ^ (Z.land globalColorTable 0x7 + 1)
    else 0 in
  let offset := 3 + globalColorTableSize in
  extensionIntroducer ← getUint8 dv offset;
  graphicsConrolLabel ← getUint8 dv (offset + 1);
  delayTime ←
    (if extensionCheck extensionIntroducer graphicsConrolLabel
     then getUint16 dv (offset + 4)
     else Normal 0);
  Normal (0 <? delayTime).

(** *** The GIF layout, as the specification words it

    A 6-byte header, a 7-byte Logical Screen Descriptor whose fifth byte is
    the packed byte, a Global Color Table of [3 * 2^(N+1)] bytes when the
    packed byte has its high bit set ([N] being its low three bits), then
    the Graphics Control Extension: introducer [0x21], label [0xF9], and a
    two-byte little-endian delay time four bytes in. *)

Module GifLayout.

Definition gct_len (packed : Z) : Z :=
  if Z.testbit packed 7 then 3 * 2 ^ (Z.land packed 7 + 1) else 0.

Definition gce_start (packed : Z) : nat :=
  (6 + 7 + Z.to_nat (gct_len packed))%nat.

(** The two bytes found where the Graphics Control Extension starts. *)
Definition gce_bytes (bytes : list Z) : option (Z * Z) :=
  packed ← bytes !! 10%nat;
  introducer ← bytes !! gce_start packed;
  label ← bytes !! (gce_start packed + 1)%nat;
  Some (introducer, label).

(** The delay time of a GIF whose color table is followed by a Graphics
    Control Extension; [None] for any other byte sequence. *)
Definition gce_delay_time (bytes : list Z) : option Z :=
  packed ← bytes !! 10%nat;
  '(introducer, label) ← gce_bytes bytes;
  if (introducer =? 0x21) && (label =? 0xF9) then
    lo ← bytes !! (gce_start packed + 4)%nat;
    hi ← bytes !! (gce_start packed + 5)%nat;
    Some (lo + 256 * hi)
  else None.

End GifLayout.

(** *** The blocks of a GIF, after the GIF89a specification

    After the header, the Logical Screen Descriptor and the optional
    Global Color Table, a GIF is a sequence of blocks up to the trailer
    [0x3B]: extensions ([0x21], a label, data sub-blocks) and images
    ([0x2C], a 9-byte Image Descriptor, an optional Local Color Table, a
    code-size byte, data sub-blocks). Data sub-blocks are a size byte
    followed by that many bytes, ended by a size of 0. A GIF is animated
    when it has more than one image. *)

Module GifBlocks.

Fixpoint skip_sub_blocks (fuel : nat) (bytes : list Z)
  : option (list Z) :=
  match fuel, bytes with
  | S fuel, size :: rest =>
      if size =? 0 then Some rest
      else if decide (Z.to_nat size <= length rest)%nat
           then skip_sub_blocks fuel (drop (Z.to_nat size) rest)
           else None
  | _, _ => None
  end.

(** The number of images in a sequence of blocks that ends with the
    trailer; [None] when the blocks are malformed. *)
Fixpoint count_images (fuel : nat) (blocks : list Z) : option nat :=
  match fuel, blocks with
  | S fuel, introducer :: rest =>
      if introducer =? 0x3B then Some O
      else if introducer =? 0x21 then
        match rest with
        | _ :: rest =>
            rest ← skip_sub_blocks fuel rest;
            count_images fuel rest
        | [] => None
        end
      else if introducer =? 0x2C then
        match drop 8 rest with
        | packed :: rest =>
            match drop (Z.to_nat (GifLayout.gct_len packed)) rest with
            | _ :: rest =>
                rest ← skip_sub_blocks fuel rest;
                n ← count_images fuel rest;
                Some (S n)
            | [] => None
            end
        | [] => None
        end
      else None
  | _, _ => None
  end.

(** The number of images of a well-formed GIF. *)
Definition image_count (bytes : list Z) : option nat :=
  if bool_decide (take 6 bytes = charCodes "GIF87a"
                  \/ take 6 bytes = charCodes "GIF89a")
  then
    packed ← bytes !! 10%nat;
    count_images (length bytes) (drop (GifLayout.gce_start packed) bytes)
  else None.

End GifBlocks.

(** ** Effects: notifications, console output and calls to collaborators *)

(** [ImageAssetType] of [@/wab/image-asset-type]. *)
Inductive ImageAssetType : Type := Picture | Icon.

#[global] Instance ImageAssetType_eq_dec : EqDecision ImageAssetType.
Proof. solve_decision. Defined.

(** A [Blob]: immutable raw bytes with a MIME type. *)
Record Blob : Type := mkBlob {
  blob_bytes : list Z;
  blob_type : string
}.

(** What a run leaves behind: [notification.error] and
    [notification.warn] with their message, the two [console.log] lines of
    [tryDownscale] with the values they print, and the requests sent to
    the remote API, to [downscale] and to the image decoder. *)
Inductive Event : Type :=
| NotificationError (message : string)
| NotificationWarn (message : string)
| LogDownscaled (sizeBefore sizeAfter : nat) (w h w' h' : Z)
| LogDownscaleFailed (sizeBefore : nat) (w h : Z) (e : Exn)
| ApiProcessSvg (svgXml : string)
| ApiUploadImageFile (imageFile : Blob)
| CallDownscale (url : string) (targetWidth targetHeight : Z)
| LoadImage (url : string).

(** A function with effects: the events it emitted, in order, and how it
    completed. An [await] of a rejected promise completes with [Throw]. *)
Definition IO (A : Type) : Type := list Event * Completion A.

#[global] Instance IO_ret : MRet IO := fun A a => ([], Normal a).
#[global] Instance IO_bind : MBind IO := fun A B f m =>
  match m with
  | (ev, Normal a) => let '(ev', r) := f a in (ev ++ ev', r)
  | (ev, Throw e) => (ev, Throw e)
  end.

Definition emit (e : Event) : IO unit := ([e], Normal tt).

(** The events that are calls of the upload API. *)
Definition is_upload (e : Event) : bool :=
  match e with ApiUploadImageFile _ => true | _ => false end.
Definition liftC {A} (c : Completion A) : IO A := ([], c).


(** ** Mutable [ResizableImage] objects and their methods *)

Record ResizableImage : Type := mkResizableImage {
  url : string;
  width : Z;
  height : Z;
  aspectRatio : option Q
}.

Definition set_url (u : string) (i : ResizableImage) : ResizableImage :=
  mkResizableImage u (width i) (height i) (aspectRatio i).
Definition set_width (w : Z) (i : ResizableImage) : ResizableImage :=
  mkResizableImage (url i) w (height i) (aspectRatio i).
Definition set_height (h : Z) (i : ResizableImage) : ResizableImage :=
  mkResizableImage (url i) (width i) h (aspectRatio i).

(** A method body: it reads and assigns the fields of [this] and emits
    events. The fields keep what was assigned to them when the body
    throws. *)
Definition Method (A : Type) : Type :=
  ResizableImage -> list Event * (ResizableImage * Completion A).

#[global] Instance Method_ret : MRet Method :=
  fun A a this => ([], (this, Normal a)).
#[global] Instance Method_bind : MBind Method := fun A B f m this =>
  match m this with
  | (ev, (this', Normal a)) =>
      let '(ev', r) := f a this' in (ev ++ ev', r)
  | (ev, (this', Throw e)) => (ev, (this', Throw e))
  end.

Definition get_this : Method ResizableImage :=
  fun this => ([], (this, Normal this)).
Definition assign (f : ResizableImage -> ResizableImage) : Method unit :=
  fun this => ([], (f this, Normal tt)).
Definition await {A} (m : IO A) : Method A :=
  fun this => (m.1, (this, m.2)).

(** [try { body } catch (e) { handler }] *)
Definition try_catch {A} (body : Method A) (handler : Exn -> Method A)
  : Method A :=
  fun this =>
    match body this with
    | (ev, (this', Normal a)) => (ev, (this', Normal a))
    | (ev, (this', Throw e)) =>
        let '(ev', r) := handler e this' in (ev ++ ev', r)
    end.

(** Calling a method on an object from a plain function; the caller keeps
    the object. *)
Definition invoke {A} (m : Method A) (obj : ResizableImage)
  : IO (A * ResizableImage) :=
  match m obj with
  | (ev, (obj', Normal a)) => (ev, Normal (a, obj'))
  | (ev, (_, Throw e)) => (ev, Throw e)
  end.


(** ** Collaborators

    [dom-utils.ts] imports these from other modules and from the browser.
    Their code is not part of the file under study, so they are the fields
    of an interface and every property below holds for each
    implementation of it. *)

(** The result of [parseDataUrl] (package [parse-data-url]) on a valid
    data URL. *)
Record ParsedDataUrl : Type := mkParsedDataUrl {
  mediaType : option string;
  contentType : option string;
  base64 : bool;
  data : string
}.

(** What an [<img>] element reports once its [src] is set: [onload] with
    its sizes, or [onerror] with the optional [error] argument. *)
Inductive ImgLoad : Type :=
| ImgOnLoad (naturalWidth imgWidth naturalHeight imgHeight : Z)
| ImgOnError (error : option Exn).

Class Platform : Type := {
  SvgElt : Type;
  (* parse-data-url; [None] is its [false] *)
  parseDataUrl : string -> option ParsedDataUrl;
  (* @/wab/shared/data-urls *)
  SVG_MEDIA_TYPE : string;
  getParsedDataUrlData : ParsedDataUrl -> Completion string;
  asSvgDataUrl : string -> string;
  imageDataUriToBlob : string -> Completion Blob;
  parseSvgXml : string -> Completion SvgElt;
  (* @/wab/shared/svg-utils; the two transforms mutate the element and
     are given as the element after the call *)
  gatherSvgColors : SvgElt -> gset string;
  convertSvgToTextSized : SvgElt -> SvgElt;
  clearExplicitColors : SvgElt -> SvgElt;
  (* new XMLSerializer().serializeToString *)
  serializeToString : SvgElt -> string;
  (* @/wab/tpls *)
  ASPECT_RATIO_SCALE_FACTOR : Q;
  (* package downscale, and the browser's image decoder *)
  downscale : string -> Z -> Z -> Completion string;
  loadImage : string -> ImgLoad
}.

(** [SVG_MEDIA_TYPE as SVG_CONTENT_TYPE] *)
Definition SVG_CONTENT_TYPE `{Platform} : string := SVG_MEDIA_TYPE.

(** Responses of [appCtx.api.processSvg]. *)
Inductive ProcessSvgResponse : Type :=
| SvgSuccess (xml : string) (svgAspectRatio : option Q)
| SvgFailure.

(** Response of [appCtx.api.uploadImageFile]. *)
Record UploadedImage : Type := mkUploadedImage {
  up_dataUri : string;
  up_width : option Z;
  up_height : option Z;
  up_aspectRatio : option Q;
  up_warning : option string
}.

(** The part of [appCtx] the pipeline uses: [appCtx.api]. *)
Record AppCtx : Type := mkAppCtx {
  processSvg : string -> Completion ProcessSvgResponse;
  uploadImageFile : Blob -> Completion UploadedImage
}.

Section Pipeline.

Context `{P : Platform}.

Definition MaxImageDim : Z := 4096.
Definition DownscaleImageSizeThreshold : Z := 4 * 1024 * 1024.

(** [string.length] *)
Definition strlen (s : string) : Z := Z.of_nat (String.length s).

(** [a || b] on numbers *)
Definition num_or (a b : Z) : Z := if truthy a then a else b.

Record ImageSize : Type := mkImageSize { size_width : Z; size_height : Z }.

Definition deriveImageSize (url : string) : IO ImageSize :=
  emit (LoadImage url);;
  match loadImage url with
  | ImgOnLoad naturalWidth imgWidth naturalHeight imgHeight =>
      mret (mkImageSize (num_or naturalWidth imgWidth)
                        (num_or naturalHeight imgHeight))
  | ImgOnError error =>
      liftC (Throw (default (Thrown "Browser cannot load this image - if you believe this is a valid image file, please share it with team@plasmic.app.") error))
  end.

(** JavaScript numbers are binary64 doubles. A finite double is a
    rational, and the result of an arithmetic operation is the double
    nearest to the exact result, ties going to the even significand.
    [double_round] is that rounding for results in the normal range of
    binary64 (from [2^-1022] up to, not including, [2^1024]): a
    significand of 53 bits times a power of two. *)
Definition pow2 (e : Z) : Q :=
  if 0 <=? e then inject_Z (2 ^ e) else (1 # Z.to_pos (2 ^ (- e)))%Q.

Definition round_half_even (q : Q) : Z :=
  let f := Qfloor q in
  match (q - inject_Z f ?= 1 # 2)%Q with
  | Lt => f
  | Gt => f + 1
  | Eq => if Z.even f then f else f + 1
  end.

Definition double_round (q : Q) : Q :=
  if Qeq_bool q 0 then 0%Q
  else
    let a := Qabs q in
    let e0 := Z.log2 (Qnum a) - Z.log2 (Zpos (Qden a)) - 52 in
    let e := if Qle_bool (pow2 52) (a / pow2 e0)%Q then e0 else e0 - 1 in
    let m := round_half_even (a / pow2 e)%Q in
    ((if Qle_bool 0 q then 1 else -1) * inject_Z m * pow2 e)%Q.

(** [a * b] on two doubles. *)
Definition double_mul (a b : Q) : Q := double_round (a * b)%Q.

(** [Math.round] on a double: the nearest integer, a tie going up. The
    result is exact. *)
Definition Math_round (x : Q) : Z := Qfloor (x + (1 # 2))%Q.

Definition scaledRoundedAspectRatio (this : ResizableImage) : option Q :=
  match aspectRatio this with
  | Some r =>
      if Qeq_bool r 0 then Some r
      else Some (inject_Z
                   (Math_round (double_mul ASPECT_RATIO_SCALE_FACTOR r)))
  | None => None
  end.

Definition actualAspectRatio (this : ResizableImage) : option Q :=
  aspectRatio this.

(** The two arguments [tryDownscale] passes to [downscale]. *)
Definition targetWidth (this : ResizableImage) : Z :=
  if height this <? width this then Z.min (width this) MaxImageDim else 0.
Definition targetHeight (this : ResizableImage) : Z :=
  if width this <=? height this then Z.min (height this) MaxImageDim else 0.

Definition tryDownscale : Method unit :=
  this ← get_this;
  if (width this <? MaxImageDim) && (height this <? MaxImageDim)
     && (strlen (url this) <? DownscaleImageSizeThreshold)
  then mret tt
  else
    let targetWidth := targetWidth this in
    let targetHeight := targetHeight this in
    let sizeBeforeDownscale := String.length (url this) in
    try_catch
      (url' ← await (emit (CallDownscale (url this) targetWidth targetHeight);;
                     liftC (downscale (url this) targetWidth targetHeight));
       assign (set_url url');;
       this ← get_this;
       size ← await (deriveImageSize (url this));
       this ← get_this;
       await (emit (LogDownscaled sizeBeforeDownscale
                      (String.length (url this)) (width this) (height this)
                      (size_width size) (size_height size)));;
       assign (set_width (size_width size));;
       assign (set_height (size_height size)))
      (fun e =>
         this ← get_this;
         await (emit (LogDownscaleFailed sizeBeforeDownscale
                        (width this) (height this) e))).

(** *** The data-URL sanitizer *)

Definition asSanitizedSvgUrl (appCtx : AppCtx) (xml : string)
  : IO (option string) :=
  processed ← (emit (ApiProcessSvg xml);; liftC (processSvg appCtx xml));
  match processed with
  | SvgFailure => mret None
  | SvgSuccess xml' _ => mret (Some (asSvgDataUrl xml'))
  end.

Definition sanitizeImageDataUrl (appCtx : AppCtx) (dataUrl : string)
  : IO (option string) :=
  match parseDataUrl dataUrl with
  | Some parsed =>
      if decide (mediaType parsed = Some SVG_MEDIA_TYPE) then
        xml ← liftC (getParsedDataUrlData parsed);
        asSanitizedSvgUrl appCtx xml
      else mret (Some dataUrl)
  | None => mret (Some dataUrl)
  end.

(** *** The classifier *)

Record AssetTypeAndUri : Type := mkAssetTypeAndUri {
  dataUri : string;
  type : ImageAssetType;
  iconColor : option string
}.

(** [shouldBeIcon], from the requested type and the gathered colors. *)
Definition shouldBeIcon (type : option ImageAssetType)
    (colors : gset string) : bool :=
  bool_decide (type = Some Icon)
  || bool_decide ("currentcolor" ∈ colors)
  || ((size colors <=? 1)%nat
      && ((size colors =? 0)%nat
          || forallb (fun v => negb (String.prefix "url" v))
                     (elements colors))).

Definition deriveImageAssetTypeAndUri (image : ResizableImage)
    (opts_type : option ImageAssetType) : IO (option AssetTypeAndUri) :=
  let dataUri := url image in
  match parseDataUrl dataUri with
  | None =>
      emit (NotificationError "Error loading image");;
      mret None
  | Some parsed =>
      let contentType := contentType parsed in
      let type := opts_type in
      if decide (type = Some Picture) then
        mret (Some (mkAssetTypeAndUri dataUri Picture None))
      else if decide (contentType = Some SVG_CONTENT_TYPE) then
        xml ← liftC (Base64.atob (data parsed));
        svgElt ← liftC (parseSvgXml xml);
        let colors := gatherSvgColors svgElt in
        if shouldBeIcon type colors then
          let svgElt := convertSvgToTextSized svgElt in
          let svgElt :=
            if negb (bool_decide ("currentcolor" ∈ colors))
               && (size colors <=? 1)%nat
            then clearExplicitColors svgElt
            else svgElt in
          let dataUri := asSvgDataUrl (serializeToString svgElt) in
          let color :=
            if (size colors =? 1)%nat then head (elements colors)
            else None in
          mret (Some (mkAssetTypeAndUri dataUri Icon
                        (if decide (color = Some "currentcolor")
                         then None else color)))
        else
          match type with
          | None => mret (Some (mkAssetTypeAndUri dataUri Picture None))
          | Some _ =>
              emit (NotificationError
                      "Can only use svg images with one color as icons");;
              mret None
          end
      else
        match type with
        | None => mret (Some (mkAssetTypeAndUri dataUri Picture None))
        | Some _ =>
            emit (NotificationError "Can only use svg images as icons");;
            mret None
        end
  end.

(** [url] is an SVG data URL holding the document [svgElt]: it parses as
    a data URL whose content type is SVG, and its payload decodes and
    parses into [svgElt], as the classifier reads it. *)
Definition svg_data_url (url : string) (svgElt : SvgElt) : Prop :=
  exists parsed xml,
    parseDataUrl url = Some parsed
    /\ contentType parsed = Some SVG_CONTENT_TYPE
    /\ Base64.atob (data parsed) = Normal xml
    /\ parseSvgXml xml = Normal svgElt.

(** *** The upload entry point *)

Record ImageAssetOpts : Type := mkImageAssetOpts {
  opts_type : ImageAssetType;
  opts_iconColor : option string;
  opts_name : option string
}.

(** The optional [file] argument: a [File] (of which only [name] is read)
    or a string. *)
Inductive FileOrString : Type :=
| AFile (name : string)
| AString (s : string).

(** [file instanceof File ? file?.name : file] *)
Definition fileName (file : option FileOrString) : option string :=
  match file with
  | Some (AFile name) => Some name
  | Some (AString s) => Some s
  | None => None
  end.

(** The object [maybeUploadImage] returns; [{}] has neither field. *)
Record UploadOutcome : Type := mkUploadOutcome {
  imageResult : option ResizableImage;
  opts : option ImageAssetOpts
}.

Definition maybeUploadImage (appCtx : AppCtx) (image : ResizableImage)
    (type_ : option ImageAssetType) (file : option FileOrString)
  : IO UploadOutcome :=
  res ← deriveImageAssetTypeAndUri image type_;
  match res with
  | None => mret (mkUploadOutcome None None)
  | Some res =>
      imageResult ←
        match type res with
        | Picture =>
            blob ← liftC (imageDataUriToBlob (dataUri res));
            uploadedImage ← (emit (ApiUploadImageFile blob);;
                             liftC (uploadImageFile appCtx blob));
            match up_warning uploadedImage with
            | Some warning =>
                if String.eqb warning "" then mret tt
                else emit (NotificationWarn warning)
            | None => mret tt
            end;;
            mret (mkResizableImage
                    (up_dataUri uploadedImage)
                    (default (width image) (up_width uploadedImage))
                    (default (height image) (up_height uploadedImage))
                    (from_option Some (actualAspectRatio image)
                                 (up_aspectRatio uploadedImage)))
        | Icon =>
            let imageResult :=
              mkResizableImage (dataUri res) (width image) (height image)
                               (scaledRoundedAspectRatio image) in
            '(_, imageResult) ← invoke tryDownscale imageResult;
            mret imageResult
        end;
      let opts :=
        mkImageAssetOpts (type res) (iconColor res) (fileName file) in
      mret (mkUploadOutcome (Some imageResult) (Some opts))
  end.

End Pipeline.

(** ** A small implementation of the collaborators

    A concrete [Platform] and [AppCtx] on which the pipeline can be run:
    SVG documents with one level of shapes, the data-URL parser, and a
    [downscale] routine, image decoder and remote API that are given as
    arguments. *)

Module Demo.

Record Shape : Type := mkShape {
  shape_tag : string;
  shape_attrs : list (string * string)
}.

Record Svg : Type := mkSvg {
  svg_attrs : list (string * string);
  svg_shapes : list Shape
}.

Definition print_attrs (attrs : list (string * string)) : string :=
  foldr (fun '(k, v) acc => " " +:+ k +:+ "='" +:+ v +:+ "'" +:+ acc)
        "" attrs.

Definition print_shape (sh : Shape) : string :=
  "<" +:+ shape_tag sh +:+ print_attrs (shape_attrs sh) +:+ "/>".

Definition serialize (d : Svg) : string :=
  "<svg" +:+ print_attrs (svg_attrs d) +:+ ">"
  +:+ foldr (fun sh acc => print_shape sh +:+ acc) "" (svg_shapes d)
  +:+ "</svg>".

Definition rect (attrs : list (string * string)) : Shape :=
  mkShape "rect" attrs.

Definition ns : string * string := ("xmlns", "http://www.w3.org/2000/svg").

(** A red square; a square in the surrounding text colour; a red square
    with a blue border; two squares, red and blue. *)
Definition oneColor : Svg :=
  mkSvg [ns] [rect [("fill", "#FF0000")]].
Definition inherits : Svg :=
  mkSvg [ns] [rect [("fill", "currentColor")]].
Definition twoColors : Svg :=
  mkSvg [ns] [rect [("fill", "#FF0000"); ("stroke", "#0000FF")]].
Definition twoShapes : Svg :=
  mkSvg [ns] [rect [("fill", "#FF0000")]; rect [("fill", "#0000FF")]].

Definition documents : list Svg :=
  [oneColor; inherits; twoColors; twoShapes].

(** Modelled from the spec: [parseSvgXml] of [@/wab/shared/data-urls],
    which is not among the sources. It parses XML text into a document;
    here, on the documents above, it is the document whose text the input
    is. *)
Definition parse_svg_xml (xml : string) : Completion Svg :=
  match list_find (fun d => serialize d = xml) documents with
  | Some (_, d) => Normal d
  | None => Throw (Thrown "not an svg document")
  end.

Definition lower (c : ascii) : ascii :=
  let n := N_of_ascii c in
  if ((65 <=? n) && (n <=? 90))%N then ascii_of_N (n + 32) else c.

Definition toLowerCase (s : string) : string :=
  string_of_list_ascii (map lower (list_ascii_of_string s)).

(** The attributes that reference a color. *)
Definition is_color_attr (kv : string * string) : bool :=
  (String.eqb kv.1 "fill" || String.eqb kv.1 "stroke")
  && negb (String.eqb kv.2 "none").

(** Modelled from the spec: [gatherSvgColors] of [@/wab/shared/svg-utils],
    which is not among the sources. The colors referenced by fill and
    stroke attributes, case-insensitively, so that [currentColor] is
    gathered as [currentcolor]. *)
Definition gather_svg_colors (d : Svg) : gset string :=
  list_to_set
    (map (fun kv => toLowerCase kv.2)
         (filter (fun kv => is_color_attr kv = true)
                 (concat (map shape_attrs (svg_shapes d))))).

Definition set_attr (k v : string) (attrs : list (string * string))
  : list (string * string) :=
  filter (fun kv => kv.1 ≠ k) attrs ++ [(k, v)].

(** Modelled from the spec: [convertSvgToTextSized] of
    [@/wab/shared/svg-utils], which is not among the sources. It rewrites
    the document to a fixed, text-relative size. *)
Definition convert_svg_to_text_sized (d : Svg) : Svg :=
  mkSvg (set_attr "height" "1em" (set_attr "width" "1em" (svg_attrs d)))
        (svg_shapes d).

(** Modelled from the spec: [clearExplicitColors] of
    [@/wab/shared/svg-utils], which is not among the sources. It strips
    the color from all elements. *)
Definition clear_explicit_colors (d : Svg) : Svg :=
  mkSvg (svg_attrs d)
        (map (fun sh =>
                mkShape (shape_tag sh)
                        (filter (fun kv => is_color_attr kv = false)
                                (shape_attrs sh)))
             (svg_shapes d)).

Definition svg_media_type : string := "image/svg+xml".

(** Modelled from the spec: [asSvgDataUrl] of [@/wab/shared/data-urls],
    which is not among the sources. It encodes XML text as an SVG data
    URL. *)
Definition as_svg_data_url (xml : string) : string :=
  "data:" +:+ svg_media_type +:+ ";base64," +:+ Base64.btoa xml.

(** [split_on c s]: the text before and after the first [c] of [s]. *)
Fixpoint split_on (c : ascii) (s : string) : option (string * string) :=
  match s with
  | EmptyString => None
  | String a rest =>
      if Ascii.eqb a c then Some (EmptyString, rest)
      else '(l, r) ← split_on c rest; Some (String a l, r)
  end.

(** [split_all c s]: the pieces of [s] between the occurrences of [c]. *)
Fixpoint split_all (c : ascii) (s : string) : list string :=
  match s with
  | EmptyString => [EmptyString]
  | String a rest =>
      if Ascii.eqb a c then EmptyString :: split_all c rest
      else match split_all c rest with
           | piece :: pieces => String a piece :: pieces
           | [] => [String a EmptyString]
           end
  end.

Definition join (sep : string) (pieces : list string) : string :=
  match pieces with
  | [] => EmptyString
  | piece :: pieces => foldl (fun acc x => acc +:+ sep +:+ x) piece pieces
  end.

Definition is_space (c : ascii) : bool :=
  let n := N_of_ascii c in
  (((9 <=? n) && (n <=? 13)) || (n =? 32))%N.

Fixpoint trim_start (l : list ascii) : list ascii :=
  match l with
  | c :: rest => if is_space c then trim_start rest else l
  | [] => []
  end.

(** [String.prototype.trim], on ASCII text. *)
Definition trim (s : string) : string :=
  string_of_list_ascii
    (reverse (trim_start (reverse (trim_start (list_ascii_of_string s))))).

Definition is_alpha (c : ascii) : bool :=
  let n := N_of_ascii (lower c) in ((97 <=? n) && (n <=? 122))%N.

Definition is_digit (c : ascii) : bool :=
  let n := N_of_ascii c in ((48 <=? n) && (n <=? 57))%N.

(** A letter, a digit or one of the characters of [extra]. *)
Definition in_class (extra : string) (c : ascii) : bool :=
  is_alpha c || is_digit c
  || existsb (Ascii.eqb c) (list_ascii_of_string extra).

Definition one_or_more (P : ascii -> bool) (s : string) : bool :=
  negb (String.eqb s "") && forallb P (list_ascii_of_string s).

(** [[a-z]+\/[a-z0-9-+.]+] *)
Definition is_media_type (s : string) : bool :=
  match split_on "/" s with
  | Some (type, subtype) =>
      one_or_more is_alpha type && one_or_more (in_class "-+.") subtype
  | None => false
  end.

(** One [;name=value] parameter of a media type, without the [;]. *)
Definition is_parameter (s : string) : bool :=
  match split_on "=" s with
  | Some (name, value) =>
      one_or_more (in_class "-.!#$%*+{}|~`") name
      && one_or_more (in_class "-.!#$%*+{}()_|~`") value
  | None => false
  end.

Definition is_data_char (c : ascii) : bool :=
  in_class "!$&',()*+;=-._~:@/?%<>" c || is_space c.

(** The package [parse-data-url], on ASCII text. A data URL is, after
    trimming and without regard to case, [data:], an optional media type
    [type/subtype] with [;name=value] parameters, an optional [;base64],
    a comma, and the data. [mediaType] is the media type with its
    parameters and [contentType] the media type alone, both in lower
    case. *)
Definition parse_data_url (s : string) : option ParsedDataUrl :=
  let s := trim s in
  if String.eqb (toLowerCase (String.substring 0 5 s)) "data:" then
    '(header, payload) ←
      split_on "," (String.substring 5 (String.length s - 5) s);
    if forallb is_data_char (list_ascii_of_string payload) then
      let pieces := split_all ";" header in
      let '(pieces, b64) :=
        match reverse pieces with
        | last :: previous :: more =>
            if String.eqb (toLowerCase last) "base64"
            then (reverse (previous :: more), true)
            else (pieces, false)
        | _ => (pieces, false)
        end in
      match pieces with
      | [] => None
      | [EmptyString] => Some (mkParsedDataUrl None None b64 payload)
      | type :: parameters =>
          if is_media_type type && forallb is_parameter parameters
          then Some (mkParsedDataUrl
                       (Some (toLowerCase (join ";" pieces)))
                       (Some (toLowerCase type))
                       b64 payload)
          else None
      end
    else None
  else None.

Definition hex_digit (c : ascii) : option N :=
  let n := N_of_ascii (lower c) in
  if ((48 <=? n) && (n <=? 57))%N then Some (n - 48)%N
  else if ((97 <=? n) && (n <=? 102))%N then Some (n - 87)%N
  else None.

(** [decodeURIComponent], on text whose escapes are ASCII. *)
Fixpoint percent_decode (s : string) : Completion string :=
  match s with
  | EmptyString => Normal EmptyString
  | String c rest =>
      if Ascii.eqb c "%" then
        match rest with
        | String h (String l rest) =>
            match hex_digit h, hex_digit l with
            | Some a, Some b =>
                decoded ← percent_decode rest;
                Normal (String (ascii_of_N (16 * a + b)) decoded)
            | _, _ => Throw (Thrown "URIError: URI malformed")
            end
        | _ => Throw (Thrown "URIError: URI malformed")
        end
      else
        decoded ← percent_decode rest;
        Normal (String c decoded)
  end.

(** Modelled from the spec: [getParsedDataUrlData] of
    [@/wab/shared/data-urls], which is not among the sources. It extracts
    the text embedded in a parsed data URL: the decoded payload when the
    URL is base64, the unescaped payload otherwise. *)
Definition get_parsed_data_url_data (parsed : ParsedDataUrl)
  : Completion string :=
  if base64 parsed then Base64.atob (data parsed)
  else percent_decode (data parsed).

(** Modelled from the spec: [imageDataUriToBlob] of
    [@/wab/shared/data-urls], which is not among the sources. It converts
    a data URI to a binary blob. *)
Definition image_data_uri_to_blob (dataUri : string) : Completion Blob :=
  match parse_data_url dataUri with
  | Some parsed =>
      bin ← get_parsed_data_url_data parsed;
      Normal (mkBlob (charCodes bin) (default "" (contentType parsed)))
  | None => Throw (Thrown "not a data url")
  end.

Definition platform (downscale : string -> Z -> Z -> Completion string)
    (loadImage : string -> ImgLoad) : Platform := {|
  SvgElt := Svg;
  parseDataUrl := parse_data_url;
  SVG_MEDIA_TYPE := svg_media_type;
  getParsedDataUrlData := get_parsed_data_url_data;
  asSvgDataUrl := as_svg_data_url;
  imageDataUriToBlob := image_data_uri_to_blob;
  parseSvgXml := parse_svg_xml;
  gatherSvgColors := gather_svg_colors;
  convertSvgToTextSized := convert_svg_to_text_sized;
  clearExplicitColors := clear_explicit_colors;
  serializeToString := serialize;
  ASPECT_RATIO_SCALE_FACTOR := 1000;
  downscale := downscale;
  loadImage := loadImage
|}.

(** A remote API that answers every request the same way. *)
Definition appCtx (svg : Completion ProcessSvgResponse)
    (upload : Completion UploadedImage) : AppCtx :=
  mkAppCtx (fun _ => svg) (fun _ => upload).

(** The sample documents as SVG data URLs, and a small PNG data URL. *)
Definition oneColorUrl : string :=
  "data:image/svg+xml;base64,PHN2ZyB4bWxucz0naHR0cDovL3d3dy53My5vcmcvMjAwMC9zdmcnPjxyZWN0IGZpbGw9JyNGRjAwMDAnLz48L3N2Zz4=".
Definition inheritsUrl : string :=
  "data:image/svg+xml;base64,PHN2ZyB4bWxucz0naHR0cDovL3d3dy53My5vcmcvMjAwMC9zdmcnPjxyZWN0IGZpbGw9J2N1cnJlbnRDb2xvcicvPjwvc3ZnPg==".
Definition twoColorsUrl : string :=
  "data:image/svg+xml;base64,PHN2ZyB4bWxucz0naHR0cDovL3d3dy53My5vcmcvMjAwMC9zdmcnPjxyZWN0IGZpbGw9JyNGRjAwMDAnIHN0cm9rZT0nIzAwMDBGRicvPjwvc3ZnPg==".
Definition pngUrl : string := "data:image/png;base64,iVBORw0KGgo=".

(** The red square with a blue border as a data URL whose payload is
    percent-encoded, and the red square as a base64 data URL whose media
    type carries a [charset] parameter. *)
Definition escapedTwoColorsUrl : string :=
  "data:image/svg+xml,%3Csvg%20xmlns='http://www.w3.org/2000/svg'%3E%3Crect%20fill='%23FF0000'%20stroke='%230000FF'/%3E%3C/svg%3E".
Definition charsetSvgUrl : string :=
  "data:image/svg+xml;charset=utf-8;base64,PHN2ZyB4bWxucz0naHR0cDovL3d3dy53My5vcmcvMjAwMC9zdmcnPjxyZWN0IGZpbGw9JyNGRjAwMDAnLz48L3N2Zz4=".
Definition smallerPngUrl : string := "data:image/png;base64,iVBORw0K".

(** No downscale routine and no image decoder. *)
Definition offline : Platform :=
  platform (fun _ _ _ => Throw (Thrown "downscale failed"))
           (fun _ => ImgOnError None).

(** A downscale routine that answers [smallerPngUrl], and an image decoder
    that cannot load anything. *)
Definition undecodable : Platform :=
  platform (fun _ _ _ => Normal smallerPngUrl) (fun _ => ImgOnError None).

(** A remote API whose SVG processing fails, and one that answers every
    document with an empty SVG. *)
Definition failing : AppCtx :=
  appCtx (Normal SvgFailure) (Throw (Thrown "offline")).
Definition cleaning : AppCtx :=
  appCtx (Normal (SvgSuccess "<svg xmlns='http://www.w3.org/2000/svg'/>"
                             (Some 1%Q)))
         (Throw (Thrown "offline")).

End Demo.

(** * Further functions of [dom-utils.ts] *)

(** ** The GIF inspector on decoded bytes

    What [isAnimatedGif] does once the payload is decoded into [bytes]. *)
Definition inspectGif (bytes : list Z) : Completion bool :=
  dv ← new_DataView bytes (HEADER_LEN + LOGICAL_SCREEN_DESC_LEN - 3);
  globalColorTable ← getUint8 dv 0;
  let globalColorTableSize :=
    if truthy (Z.land globalColorTable 0x80)
    then 3 * 2 ^ (Z.land globalColorTable 0x7 + 1)
    else 0 in
  let offset := 3 + globalColorTableSize in
  extensionIntroducer ← getUint8 dv offset;
  graphicsConrolLabel ← getUint8 dv (offset + 1);
  delayTime ←
    (if extensionCheck extensionIntroducer graphicsConrolLabel
     then getUint16 dv (offset + 4)
     else Normal 0);
  Normal (0 <? delayTime).

(** The start of the looping Application Extension that encoders write
    before the first frame of an animated GIF: introducer [0x21], label
    [0xFF], block size 11 and the identifier [NETSCAPE2.0]. *)
Definition netscape_extension : list Z :=
  [0x21; 0xFF; 0x0B] ++ charCodes "NETSCAPE2.0".

(** ** Walking up a DOM tree *)

Module Dom.

Definition Node : Type := nat.

(** A DOM tree through what the functions below read of it: the parent
    link of every node, which nodes are elements, and two layout
    measures. DOM trees are finite and acyclic: [depth] is the distance of
    a node from the root of its tree, and bounds every walk to the
    root. *)
Record Tree : Type := mkTree {
  parentNode : Node -> option Node;
  isElement : Node -> bool;
  scrollHeight : Node -> Z;
  offsetHeight : Node -> Z;
  depth : Node -> nat;
  depth_parentNode :
    forall n p, parentNode n = Some p -> (depth p < depth n)%nat
}.

(** [node.parentElement]: the parent when it is an element. *)
Definition parentElement (t : Tree) (n : Node) : option Node :=
  match parentNode t n with
  | Some p => if isElement t p then Some p else None
  | None => None
  end.

(** The loop of [isDescendant]; [None] when [fuel] runs out before the
    walk ends. *)
Fixpoint isDescendant_loop (t : Tree) (parent : Node) (fuel : nat)
    (node : option Node) : option bool :=
  match node with
  | None => Some false
  | Some n =>
      if decide (n = parent) then Some true
      else match fuel with
           | O => None
           | S fuel => isDescendant_loop t parent fuel (parentNode t n)
           end
  end.

Definition isDescendant (t : Tree) (parent child : Node) : option bool :=
  isDescendant_loop t parent (depth t child) (parentNode t child).

(** The loop of [hasAncestorElement]; the result [Some None] is the
    function's [false]. *)
Fixpoint hasAncestorElement_loop (t : Tree) (pred : Node -> bool)
    (fuel : nat) (cur : option Node) : option (option Node) :=
  match cur with
  | None => Some None
  | Some n =>
      if pred n then Some (Some n)
      else match fuel with
           | O => None
           | S fuel => hasAncestorElement_loop t pred fuel (parentElement t n)
           end
  end.

Definition hasAncestorElement (t : Tree) (target : Node)
    (pred : Node -> bool) : option (option Node) :=
  hasAncestorElement_loop t pred (S (depth t target)) (Some target).

(** The declared result type of [getClippingParent],
    [HTMLElement | undefined]. *)
Inductive ElementOrUndefined : Type :=
| AnElement (e : Node)
| Undefined.

(** [getClippingParent], a recursive function; [None] when [fuel] runs
    out before the recursion ends. The test
    [element.parentElement &&
     element.parentElement.scrollHeight > element.parentElement.offsetHeight]
    is the case [Some p] with [offsetHeight p < scrollHeight p]; in the
    two other cases the function calls itself on [element.parentElement]. *)
Fixpoint getClippingParent_rec (t : Tree) (fuel : nat)
    (element : option Node) : option ElementOrUndefined :=
  match element with
  | None => Some Undefined
  | Some e =>
      match parentElement t e with
      | Some p =>
          if offsetHeight t p <? scrollHeight t p then Some (AnElement p)
          else match fuel with
               | O => None
               | S fuel => getClippingParent_rec t fuel (Some p)
               end
      | None =>
          match fuel with
          | O => None
          | S fuel => getClippingParent_rec t fuel None
          end
      end
  end.

Definition getClippingParent (t : Tree) (element : option Node)
  : option ElementOrUndefined :=
  getClippingParent_rec t (S (from_option (depth t) O element)) element.

(** What a caller that has to produce [HTMLElement | undefined] makes of
    a result of [hasAncestorElement]: the element found, and [undefined]
    in place of [false]. *)
Definition undefined_for_false (r : option Node) : ElementOrUndefined :=
  match r with
  | Some e => AnElement e
  | None => Undefined
  end.

(** [p] is the parent of [n], or the parent of one of its ancestors. *)
Inductive ancestor (t : Tree) (p : Node) : Node -> Prop :=
| ancestor_parent n : parentNode t n = Some p -> ancestor t p n
| ancestor_step n q :
    parentNode t n = Some q -> ancestor t p q -> ancestor t p n.

(** The same along [parentElement] links, which stop at the first parent
    that is not an element. *)
Inductive elementAncestor (t : Tree) (p : Node) : Node -> Prop :=
| elementAncestor_parent n :
    parentElement t n = Some p -> elementAncestor t p n
| elementAncestor_step n q :
    parentElement t n = Some q -> elementAncestor t p q ->
    elementAncestor t p n.

(** A document (node 0) holding [html] (1), [body] (2), a [div] (3) taller
    than its box, and a [span] (4) inside it; nodes from 5 on are
    detached. *)
Definition sample : Tree.
Proof.
  refine (mkTree
            (fun n => match n with
                      | 1 => Some 0 | 2 => Some 1 | 3 => Some 2 | 4 => Some 3
                      | _ => None
                      end%nat)
            (fun n => negb (n =? 0)%nat)
            (fun n => if (n =? 3)%nat then 900 else 100)
            (fun _ => 100)
            (fun n => if (n <=? 4)%nat then n else O)
            _).
  intros [|[|[|[|[|n]]]]] p [= <-]; simpl; lia.
Defined.

End Dom.

(** ** Reading files and the clipboard *)

(** What a [FileReader] reports for a file: [onload] with the result, or
    [onerror] with the reader's error. *)
Inductive FileRead : Type :=
| FileOnLoad (result : string)
| FileOnError (error : Exn).

(** A [File]: its name and what reading it gives. *)
Record File : Type := mkFile {
  file_name : string;
  file_read : FileRead
}.

Record DataTransferItem : Type := mkDataTransferItem {
  item_type : string;
  getAsFile : option File
}.

(** A [DataTransfer]: its items and [getData("text/plain")]. *)
Record DataTransfer : Type := mkDataTransfer {
  dt_items : list DataTransferItem;
  dt_text_plain : string
}.

(** The events of the functions that read files or the clipboard: those
    of the pipeline, a [FileReader] being started, and the [console.log]
    of [readImageFromClipboard]. *)
Inductive IngestEvent : Type :=
| ReadAsDataURL (name : string)
| LogPastingSvg (textContent : string)
| Pipeline (e : Event).

Definition Ingest (A : Type) : Type := list IngestEvent * Completion A.

#[global] Instance Ingest_ret : MRet Ingest := fun A a => ([], Normal a).
#[global] Instance Ingest_bind : MBind Ingest := fun A B f m =>
  match m with
  | (ev, Normal a) => let '(ev', r) := f a in (ev ++ ev', r)
  | (ev, Throw e) => (ev, Throw e)
  end.

Definition pipeline {A} (m : IO A) : Ingest A := (Pipeline <$> m.1, m.2).

(** [String.prototype.includes] *)
Fixpoint includes (pat s : string) : bool :=
  String.prefix pat s
  || match s with
     | EmptyString => false
     | String _ rest => includes pat rest
     end.

(** [s.replace(pat, rep)] for a string pattern and a replacement without
    [$]: the first occurrence is replaced. *)
Fixpoint replace_first (pat rep s : string) : string :=
  if String.prefix pat s
  then rep +:+ String.substring (String.length pat)
                 (String.length s - String.length pat) s
  else match s with
       | EmptyString => EmptyString
       | String c rest => String c (replace_first pat rep rest)
       end.

Definition double_quote : string := String "034"%char EmptyString.

(** The opening tag [readImageFromClipboard] substitutes for [<svg]. *)
Definition svg_with_namespace : string :=
  "<svg xmlns=" +:+ double_quote +:+ "http://www.w3.org/2000/svg"
  +:+ double_quote.

Section Ingestion.

Context `{P : Platform}.

Definition readUploadedFileAsDataUrl (file : File) : Ingest string :=
  ([ReadAsDataURL (file_name file)],
   match file_read file with
   | FileOnLoad result => Normal result
   | FileOnError error => Throw error
   end).

Definition maybeGetAspectRatioFromImageDataUrl (appCtx : AppCtx)
    (dataUrl : string) : IO (option Q) :=
  match parseDataUrl dataUrl with
  | Some parsed =>
      if decide (mediaType parsed = Some SVG_MEDIA_TYPE) then
        svgXml ← liftC (getParsedDataUrlData parsed);
        processed ← (emit (ApiProcessSvg svgXml);;
                     liftC (processSvg appCtx svgXml));
        match processed with
        | SvgSuccess _ ratio => mret ratio
        | SvgFailure => mret None
        end
      else mret None
  | None => mret None
  end.

Definition readAndSanitizeFileAsImage (appCtx : AppCtx)
    (fileOrDataUrl : File + string) : Ingest (option ResizableImage) :=
  dataUrl ← match fileOrDataUrl with
            | inr s => mret s
            | inl file => readUploadedFileAsDataUrl file
            end;
  url ← pipeline (sanitizeImageDataUrl appCtx dataUrl);
  match url with
  | None => mret None
  | Some url =>
      if String.eqb url "" then mret None
      else
        size ← pipeline (deriveImageSize url);
        ratio ← pipeline (maybeGetAspectRatioFromImageDataUrl appCtx url);
        mret (Some (mkResizableImage url (size_width size)
                                     (size_height size) ratio))
  end.

Definition readAndSanitizeSvgXmlAsImage (appCtx : AppCtx)
    (svgXml : string) : IO (option ResizableImage) :=
  sanitized ← (emit (ApiProcessSvg svgXml);;
               liftC (processSvg appCtx svgXml));
  match sanitized with
  | SvgFailure => mret None
  | SvgSuccess xml ratio =>
      let url := asSvgDataUrl xml in
      size ← deriveImageSize url;
      mret (Some (mkResizableImage url (size_width size)
                                   (size_height size) ratio))
  end.

Definition readImageFromClipboard (appCtx : AppCtx)
    (clipboardData : DataTransfer) : Ingest (option ResizableImage) :=
  match List.find (fun x => includes "image" (item_type x))
                  (dt_items clipboardData) with
  | Some imageItem =>
      match getAsFile imageItem with
      | Some blob => readAndSanitizeFileAsImage appCtx (inl blob)
      | None => mret None
      end
  | None =>
      let textContent := dt_text_plain clipboardData in
      if String.eqb textContent "" then mret None
      else
        let textContent :=
          if includes "xmlns=" textContent then textContent
          else replace_first "<svg" svg_with_namespace textContent in
        ([LogPastingSvg textContent], Normal tt);;
        pipeline (readAndSanitizeSvgXmlAsImage appCtx textContent)
  end.

End Ingestion.

(** The requests [tryDownscale] sends to [downscale]. *)
Definition is_downscale_request (e : Event) : bool :=
  match e with CallDownscale _ _ _ => true | _ => false end.

(** ** Sample platforms, files and clipboards *)

Module Fixtures.

(** A platform whose [downscale] answers [Demo.smallerPngUrl] and whose
    decoder loads every image as 4096 by 1638, reporting no natural
    width. *)
Definition online : Platform :=
  Demo.platform (fun _ _ _ => Normal Demo.smallerPngUrl)
                (fun _ => ImgOnLoad 0 4096 1638 1638).

(** A remote API that stores every upload under the same address, 640
    wide, with a warning. *)
Definition storing : AppCtx :=
  Demo.appCtx (Normal SvgFailure)
    (Normal (mkUploadedImage "https://img.example/1.png" (Some 640) None
                             None (Some "Image was compressed"))).

(** A 1x1 GIF89a with the looping Application Extension and a Graphics
    Control Extension of delay 0; the same bytes behind the header
    [NOTAGIF!!!] and another media type; a GIF87a image at left position
    0; a GIF cut after the first byte of its Image Descriptor. *)
Definition loopingGifUrl : string :=
  "data:image/gif;base64,R0lGODlhAQABAIAAAAAAAP///yH/C05FVFNDQVBFMi4wAwEAAAAh+QQAAAAAACwAAAAAAQABAAACAkQBADs=".
Definition relabelledUrl : string :=
  "data:text/plain;base64,Tk9UQUdJRiEhIYAAAAAAAP///yH/C05FVFNDQVBFMi4wAwEAAAAh+QQAAAAAACwAAAAAAQABAAACAkQBADs=".
Definition gif87Url : string :=
  "data:image/gif;base64,R0lGODdhAQABAAAAACwAAAAAAQABAAACAkQBADs=".
Definition truncatedGifUrl : string :=
  "data:image/gif;base64,R0lGODlhAQABAAAAACw=".

(** An SVG data URL whose payload is not base64. *)
Definition undecodableSvgUrl : string := "data:image/svg+xml;base64,***".

Definition pngFile : File := mkFile "photo.png" (FileOnLoad Demo.pngUrl).

Definition pastedImage (text : string) : DataTransfer :=
  mkDataTransfer [mkDataTransferItem "text/html" None;
                  mkDataTransferItem "image/png" (Some pngFile)]
                 text.

Definition pastedText : DataTransfer :=
  mkDataTransfer [] "<svg><rect/></svg>".

End Fixtures.

(** * Properties *)

(** ** [atob] and the data-URL prefix on sample inputs *)

Example atob_padded : Base64.atob "R0lGODlh" = Normal "GIF89a".
Proof. reflexivity. Qed.

Example atob_one_byte : Base64.atob "YQ==" = Normal "a".
Proof. reflexivity. Qed.

Example atob_unpadded_two_bytes : Base64.atob "YWI" = Normal "ab".
Proof. reflexivity. Qed.

Example atob_bad_length : Base64.atob "YWJjZ" = Throw InvalidCharacterError.
Proof. reflexivity. Qed.

Example atob_bad_character :
  Base64.atob "YW*j" = Throw InvalidCharacterError.
Proof. reflexivity. Qed.

Example btoa_sample : Base64.btoa "GIF89a" = "R0lGODlh".
Proof. reflexivity. Qed.

Example strip_prefix_sample :
  strip_data_url_prefix "data:image/gif;base64,R0lG" = "R0lG".
Proof. reflexivity. Qed.

Example strip_prefix_no_comma : strip_data_url_prefix "R0lG" = "R0lG".
Proof. reflexivity. Qed.

(** ** The data-URL parser on sample inputs *)

Example parse_data_url_any_case :
  Demo.parse_data_url " DATA:image/PNG;Charset=UTF-8;base64,iVBORw0KGgo= "
  = Some (mkParsedDataUrl (Some "image/png;charset=utf-8")
                          (Some "image/png") true "iVBORw0KGgo=").
Proof. reflexivity. Qed.

Example parse_data_url_no_media_type :
  Demo.parse_data_url "data:,hello"
  = Some (mkParsedDataUrl None None false "hello").
Proof. reflexivity. Qed.

Example parse_data_url_no_subtype : Demo.parse_data_url "data:foo,bar" = None.
Proof. reflexivity. Qed.

Example get_parsed_data_url_data_escaped :
  Demo.get_parsed_data_url_data
    (mkParsedDataUrl (Some "text/plain") (Some "text/plain") false
                     "a%20b%3C")
  = Normal "a b<".
Proof. reflexivity. Qed.

(** ** The scaled aspect ratio on a sample input *)

(** The product is rounded to a double before [Math.round] is applied:
    for the double nearest to 1.0005 and the factor 1000, the exact
    product lies below 1000.5 and the double product is 1000.5, which
    [Math.round] takes to 1001. *)
Example scaledRoundedAspectRatio_rounds_the_double_product :
  let r := double_round (10005 # 10000) in
  double_round r = r
  /\ Math_round (1000 * r) = 1000
  /\ Math_round (double_mul 1000 r) = 1001
  /\ scaledRoundedAspectRatio (P := Demo.offline)
       (mkResizableImage Demo.pngUrl 1 1 (Some r))
     = Some (inject_Z 1001).
Proof. vm_compute. repeat split; reflexivity. Qed.

(** ** The GIF inspector *)

Import GifLayout.

(** A payload that ends before the Logical Screen Descriptor's packed
    byte makes the [DataView] constructor throw. *)
Example isAnimatedGif_too_short :
  isAnimatedGif "data:image/gif;base64,R0lGODlh" = Throw RangeError.
Proof. reflexivity. Qed.

Lemma charCodes_range (s : string) (i : nat) (b : Z) :
  charCodes s !! i = Some b -> 0 <= b < 256.
Proof.
  unfold charCodes. rewrite list_lookup_fmap.
  destruct (list_ascii_of_string s !! i) as [c|]; simpl; [|done].
  intros [= <-]. pose proof (N_ascii_bounded c). lia.
Qed.

Lemma high_bit_truthy (p : Z) : truthy (Z.land p 0x80) = Z.testbit p 7.
Proof.
  unfold truthy. destruct (Z.testbit p 7) eqn:Hb.
  - destruct (Z.eqb_spec (Z.land p 128) 0) as [H0|]; [|done].
    assert (Z.testbit (Z.land p 128) 7 = true) as Hc
      by (rewrite Z.land_spec, Hb; reflexivity).
    rewrite H0 in Hc. discriminate.
  - assert (Z.land p 128 = 0) as ->; [|done].
    apply Z.bits_inj'. intros n Hn.
    rewrite Z.land_spec, Z.bits_0.
    destruct (decide (n = 7)) as [->|Hne]; [by rewrite Hb|].
    change 128 with (2 ^ 7). rewrite Z.pow2_bits_false by lia.
    apply andb_false_r.
Qed.

Lemma gct_len_nonneg (p : Z) : 0 <= gct_len p.
Proof.
  unfold gct_len. destruct (Z.testbit p 7); [|lia].
  destruct (Z.le_gt_cases 0 (Z.land p 7 + 1)).
  - pose proof (Z.pow_nonneg 2 (Z.land p 7 + 1)). lia.
  - rewrite Z.pow_neg_r by lia. lia.
Qed.

Lemma getUint8_view (bytes : list Z) (n : nat) (i : Z) (b : Z) :
  0 <= i -> bytes !! (n + Z.to_nat i)%nat = Some b ->
  getUint8 (mkDataView bytes n) i = Normal b.
Proof.
  intros Hi Hb. unfold getUint8; simpl.
  destruct (Z.leb_spec 0 i); [|lia].
  by rewrite lookup_drop, Hb.
Qed.

Lemma getUint16_view (bytes : list Z) (n : nat) (i : Z) (hi lo : Z) :
  0 <= i ->
  bytes !! (n + Z.to_nat i)%nat = Some hi ->
  bytes !! (n + Z.to_nat i + 1)%nat = Some lo ->
  getUint16 (mkDataView bytes n) i = Normal (hi * 256 + lo).
Proof.
  intros Hi Hhi Hlo. unfold getUint16; simpl.
  destruct (Z.leb_spec 0 i); [|lia].
  rewrite !lookup_drop, Hhi.
  replace (n + Z.to_nat (i + 1))%nat with (n + Z.to_nat i + 1)%nat by lia.
  by rewrite Hlo.
Qed.

Lemma gce_delay_time_Some (bytes : list Z) (delay : Z) :
  gce_delay_time bytes = Some delay ->
  exists packed lo hi,
    bytes !! 10%nat = Some packed
    /\ bytes !! gce_start packed = Some 0x21
    /\ bytes !! (gce_start packed + 1)%nat = Some 0xF9
    /\ bytes !! (gce_start packed + 4)%nat = Some lo
    /\ bytes !! (gce_start packed + 5)%nat = Some hi
    /\ delay = lo + 256 * hi.
Proof.
  unfold gce_delay_time, gce_bytes. intros H.
  destruct (bytes !! 10%nat) as [packed|] eqn:Hp; [|done].
  cbn -[gce_start] in H.
  destruct (bytes !! gce_start packed) as [e|] eqn:He; [|done].
  cbn -[gce_start] in H.
  destruct (bytes !! (gce_start packed + 1)%nat) as [l|] eqn:Hl; [|done].
  cbn -[gce_start] in H.
  destruct (Z.eqb_spec e 0x21) as [Ee|]; [|done].
  destruct (Z.eqb_spec l 0xF9) as [El|]; [|done].
  cbn -[gce_start] in H.
  destruct (bytes !! (gce_start packed + 4)%nat) as [lo|] eqn:Hlo; [|done].
  cbn -[gce_start] in H.
  destruct (bytes !! (gce_start packed + 5)%nat) as [hi|] eqn:Hhi; [|done].
  injection H as <-. subst e l. by exists packed, lo, hi.
Qed.

(** C1, as amended. For every data URL whose payload decodes to a GIF in
    which the Logical Screen Descriptor and the optional Global Color
    Table are followed by a Graphics Control Extension, [isAnimatedGif]
    returns normally, and returns true exactly when the extension's delay
    time is greater than 0: true for every such GIF whose delay is
    greater than 0, however many images it has, and false for every such
    GIF whose delay is 0. *)
Theorem isAnimatedGif_iff_delay_positive (dataUrl bin : string) (delay : Z) :
  Base64.atob (strip_data_url_prefix dataUrl) = Normal bin ->
  gce_delay_time (charCodes bin) = Some delay ->
  isAnimatedGif dataUrl = Normal (bool_decide (0 < delay)).
Proof.
  intros Hbin Hgif. unfold isAnimatedGif. rewrite Hbin.
  set (bytes := charCodes bin) in *.
  apply gce_delay_time_Some in Hgif
    as (packed & lo & hi & Hp & He & Hl & Hlo & Hhi & ->).
  pose proof (lookup_lt_Some _ _ _ Hp) as Hlen.
  pose proof (gct_len_nonneg packed) as Hg.
  change (Normal bin ≫= ?f) with (f bin). cbv beta zeta. fold bytes.
  change (HEADER_LEN + LOGICAL_SCREEN_DESC_LEN - 3)%nat with 10%nat.
  unfold new_DataView.
  destruct (decide _) as [_|Hn]; [|lia].
  change (Normal ?a ≫= ?f) with (f a). cbv beta.
  rewrite (getUint8_view bytes _ 0 packed) by (done || lia).
  change (Normal ?a ≫= ?f) with (f a). cbv beta.
  rewrite high_bit_truthy.
  fold (gct_len packed). unfold gce_start in *.
  set (g := gct_len packed) in *.
  rewrite (getUint8_view bytes _ (3 + g) 0x21)
    by (try lia; rewrite <- He; f_equal; lia).
  change (Normal ?a ≫= ?f) with (f a). cbv beta.
  rewrite (getUint8_view bytes _ (3 + g + 1) 0xF9)
    by (try lia; rewrite <- Hl; f_equal; lia).
  change (Normal ?a ≫= ?f) with (f a). cbv beta.
  change (extensionCheck 33 249) with true. cbv iota.
  rewrite (getUint16_view bytes _ (3 + g + 4) lo hi)
    by (try lia; (rewrite <- Hlo || rewrite <- Hhi); f_equal; lia).
  change (Normal ?a ≫= ?f) with (f a). cbv beta. f_equal.
  apply charCodes_range in Hlo, Hhi.
  destruct (Z.ltb_spec 0 (lo * 256 + hi));
    [rewrite bool_decide_eq_true_2 | rewrite bool_decide_eq_false_2];
    (done || lia).
Qed.

(** A 1x1 GIF89a with a two-entry color table whose extension carries a
    delay of 10, and the same image with a delay of 0. *)
Lemma isAnimatedGif_iff_delay_positive_witness :
  isAnimatedGif
    "data:image/gif;base64,R0lGODlhAQABAIAAAAAAAP///yH5BAAKAAAALAAAAAABAAEAAAICRAEAOw=="
  = Normal (bool_decide (0 < 10))
  /\ isAnimatedGif
       "data:image/gif;base64,R0lGODlhAQABAIAAAAAAAP///yH5BAAAAAAALAAAAAABAAEAAAICRAEAOw=="
     = Normal (bool_decide (0 < 0)).
Proof.
  split.
  - eapply isAnimatedGif_iff_delay_positive; vm_compute; reflexivity.
  - eapply isAnimatedGif_iff_delay_positive; vm_compute; reflexivity.
Defined.

(** C1, as stated, fails in its closing clause: a GIF89a with a single
    image, which is not animated, whose Graphics Control Extension carries
    a delay of 10 is reported as animated. *)
Lemma isAnimatedGif_single_image_counterexample :
  exists bin : string,
    Base64.atob
      (strip_data_url_prefix
         "data:image/gif;base64,R0lGODlhAQABAIAAAAAAAP///yH5BAAKAAAALAAAAAABAAEAAAICRAEAOw==")
    = Normal bin
    /\ GifBlocks.image_count (charCodes bin) = Some 1%nat
    /\ gce_delay_time (charCodes bin) = Some 10
    /\ isAnimatedGif
         "data:image/gif;base64,R0lGODlhAQABAIAAAAAAAP///yH5BAAKAAAALAAAAAABAAEAAAICRAEAOw=="
       = Normal true.
Proof. eexists. repeat split; vm_compute; reflexivity. Qed.

(** C2. The extension check passes for byte pairs other than
    [(0x21, 0xF9)]: a GIF87a image, which has no Graphics Control
    Extension, whose Image Descriptor ([0x2C]) with left position 1 stands
    where the extension is looked for, passes the check and is reported as
    animated. *)
Theorem extensionCheck_false_positive :
  exists (e l : Z) (dataUrl bin : string),
    (e, l) <> (0x21, 0xF9)
    /\ 0 <= e < 256 /\ 0 <= l < 256
    /\ extensionCheck e l = true
    /\ Base64.atob (strip_data_url_prefix dataUrl) = Normal bin
    /\ gce_bytes (charCodes bin) = Some (e, l)
    /\ isAnimatedGif dataUrl = Normal true.
Proof.
  exists 0x2C, 1,
    "data:image/gif;base64,R0lGODdhAgABAAAAACwBAAAAAQABAAACAkQBADs=".
  eexists. split; [intros [=]|].
  split; [lia|]. split; [lia|]. split; [reflexivity|].
  split; [vm_compute; reflexivity|].
  split; vm_compute; reflexivity.
Qed.

(** ** The classifier *)

Section Classifier.

Context `{P : Platform}.

Lemma IO_bind_Normal {A B} (f : A -> IO B) (a : A) :
  liftC (Normal a) ≫= f = f a.
Proof. unfold liftC, mbind, IO_bind. by destruct (f a). Qed.

(** What the classifier does on an SVG data URL once the requested type
    is not [Picture]: it decides on the gathered colors alone. *)
Lemma deriveImageAssetTypeAndUri_svg (image : ResizableImage)
    (type_ : option ImageAssetType) (svgElt : SvgElt) :
  svg_data_url (url image) svgElt ->
  type_ <> Some Picture ->
  deriveImageAssetTypeAndUri image type_ =
    let colors := gatherSvgColors svgElt in
    if shouldBeIcon type_ colors then
      let cleared :=
        negb (bool_decide ("currentcolor" ∈ colors))
        && (size colors <=? 1)%nat in
      let color :=
        if (size colors =? 1)%nat then head (elements colors) else None in
      ([], Normal (Some (mkAssetTypeAndUri
         (asSvgDataUrl (serializeToString
            (if cleared
             then clearExplicitColors (convertSvgToTextSized svgElt)
             else convertSvgToTextSized svgElt)))
         Icon
         (if decide (color = Some "currentcolor") then None else color))))
    else
      match type_ with
      | None => ([], Normal (Some (mkAssetTypeAndUri (url image) Picture None)))
      | Some _ =>
          ([NotificationError
              "Can only use svg images with one color as icons"],
           Normal None)
      end.
Proof.
  intros (parsed & xml & Hparse & Hct & Hatob & Hxml) Htype.
  unfold deriveImageAssetTypeAndUri. rewrite Hparse.
  destruct (decide (type_ = Some Picture)) as [|_]; [done|].
  destruct (decide (contentType parsed = Some SVG_CONTENT_TYPE)) as [_|];
    [|done].
  rewrite Hatob, IO_bind_Normal, Hxml, IO_bind_Normal. cbv zeta.
  destruct (shouldBeIcon type_ (gatherSvgColors svgElt)); [done|].
  by destruct type_.
Qed.


(** C3, as amended. When the caller requests [Icon] for an SVG data URL
    whose payload [atob] decodes to text that [parseSvgXml] parses into a
    document with two or more distinct literal colors and no
    [currentcolor], the document is accepted as an icon: the result has
    type [Icon], no icon color, and the data URI of the text-sized
    document with its colors kept; no notification is emitted. *)
Theorem icon_request_accepts_multicolor_svg (image : ResizableImage)
    (svgElt : SvgElt) :
  svg_data_url (url image) svgElt ->
  (2 <= size (gatherSvgColors svgElt))%nat ->
  "currentcolor" ∉ gatherSvgColors svgElt ->
  deriveImageAssetTypeAndUri image (Some Icon) =
    ([], Normal (Some (mkAssetTypeAndUri
           (asSvgDataUrl (serializeToString (convertSvgToTextSized svgElt)))
           Icon None))).
Proof.
  intros Hsvg Hsize Hcur.
  rewrite (deriveImageAssetTypeAndUri_svg _ _ _ Hsvg) by done.
  cbv zeta. unfold shouldBeIcon.
  rewrite (bool_decide_eq_true_2 (Some Icon = Some Icon)) by done.
  cbn [orb].
  destruct (Nat.leb_spec (size (gatherSvgColors svgElt)) 1); [lia|].
  rewrite andb_false_r.
  destruct (Nat.eqb_spec (size (gatherSvgColors svgElt)) 1); [lia|].
  done.
Qed.

(** C4. With no requested type, an SVG whose only color is a literal
    color [c] (neither [currentcolor] nor a [url] reference) becomes an
    icon of color [c] whose data URI encodes the text-sized document after
    [clearExplicitColors]; an SVG whose only color is [currentcolor]
    becomes an icon with no icon color, its colors untouched. *)
Theorem single_color_svg_is_icon (image : ResizableImage)
    (svgElt : SvgElt) :
  svg_data_url (url image) svgElt ->
  (forall c : string,
      gatherSvgColors svgElt = {[ c ]} ->
      c <> "currentcolor" -> String.prefix "url" c = false ->
      deriveImageAssetTypeAndUri image None =
        ([], Normal (Some (mkAssetTypeAndUri
               (asSvgDataUrl (serializeToString
                  (clearExplicitColors (convertSvgToTextSized svgElt))))
               Icon (Some c)))))
  /\ (gatherSvgColors svgElt = {[ "currentcolor" ]} ->
      deriveImageAssetTypeAndUri image None =
        ([], Normal (Some (mkAssetTypeAndUri
               (asSvgDataUrl (serializeToString
                  (convertSvgToTextSized svgElt)))
               Icon None)))).
Proof.
  intros Hsvg. split.
  - intros c Hc Hcur Hurl.
    rewrite (deriveImageAssetTypeAndUri_svg _ _ _ Hsvg) by done.
    cbv zeta. unfold shouldBeIcon. rewrite Hc.
    rewrite size_singleton, elements_singleton.
    rewrite (bool_decide_eq_false_2 ("currentcolor" ∈ _))
      by (rewrite elem_of_singleton; congruence).
    cbn. rewrite Hurl. cbn.
    destruct (decide (Some c = Some "currentcolor")); [congruence|done].
  - intros Hc.
    rewrite (deriveImageAssetTypeAndUri_svg _ _ _ Hsvg) by done.
    cbv zeta. unfold shouldBeIcon. rewrite Hc.
    rewrite size_singleton, elements_singleton.
    rewrite (bool_decide_eq_true_2 ("currentcolor" ∈ _))
      by (by apply elem_of_singleton).
    cbn. done.
Qed.


End Classifier.

(** ** The sanitizer *)

Section Sanitizer.

Context `{P : Platform}.

(** The sanitizer by the test it makes. On a data URL whose [mediaType],
    parameters included, is [SVG_MEDIA_TYPE], it sends the embedded XML to
    [processSvg] and returns undefined when the response is a failure,
    and the returned XML as an SVG data URL when it is a success; on any
    other input it returns its input, with no remote call. *)
Theorem sanitizeImageDataUrl_cases (appCtx : AppCtx) (dataUrl : string) :
  (forall parsed xml,
      parseDataUrl dataUrl = Some parsed ->
      mediaType parsed = Some SVG_MEDIA_TYPE ->
      getParsedDataUrlData parsed = Normal xml ->
      (processSvg appCtx xml = Normal SvgFailure ->
       sanitizeImageDataUrl appCtx dataUrl =
         ([ApiProcessSvg xml], Normal None))
      /\ (forall xml' ratio,
             processSvg appCtx xml = Normal (SvgSuccess xml' ratio) ->
             sanitizeImageDataUrl appCtx dataUrl =
               ([ApiProcessSvg xml], Normal (Some (asSvgDataUrl xml')))))
  /\ ((forall parsed,
          parseDataUrl dataUrl = Some parsed ->
          mediaType parsed <> Some SVG_MEDIA_TYPE) ->
      sanitizeImageDataUrl appCtx dataUrl = ([], Normal (Some dataUrl))).
Proof.
  unfold sanitizeImageDataUrl, asSanitizedSvgUrl. split.
  - intros parsed xml -> Hmedia Hxml.
    destruct (decide _) as [_|]; [|done].
    rewrite Hxml, IO_bind_Normal.
    split; [intros ->|intros xml' ratio ->]; reflexivity.
  - intros Hmedia. destruct (parseDataUrl dataUrl) as [parsed|]; [|done].
    destruct (decide _) as [Heq|]; [|done].
    by destruct (Hmedia parsed eq_refl).
Qed.

(** C6 fails on the code. The sanitizer compares [mediaType], which
    holds the media type with its parameters, to [SVG_MEDIA_TYPE], where
    the classifier compares [contentType]. A data URL whose content type
    is SVG and whose media type carries a parameter is returned as it is,
    with no call of [processSvg], whatever the remote API would answer. *)
Theorem sanitizeImageDataUrl_skips_svg_with_parameters (appCtx : AppCtx)
    (dataUrl : string) (parsed : ParsedDataUrl) :
  parseDataUrl dataUrl = Some parsed ->
  contentType parsed = Some SVG_CONTENT_TYPE ->
  mediaType parsed <> Some SVG_MEDIA_TYPE ->
  sanitizeImageDataUrl appCtx dataUrl = ([], Normal (Some dataUrl)).
Proof.
  intros Hparse _ Hmedia. unfold sanitizeImageDataUrl. rewrite Hparse.
  by destruct (decide _).
Qed.

End Sanitizer.

(** ** Downscaling *)

Section Downscaling.

Context `{P : Platform}.

(** C7. [tryDownscale] changes nothing and calls nothing when both
    dimensions are below 4096 and the url is shorter than 4 MiB. Otherwise
    its first step is the call of [downscale] on the url, with the larger
    of width and height clamped to 4096 and 0 for the other dimension; for
    5000 by 2000 the target is width 4096 and height 0. *)
Theorem tryDownscale_target (this : ResizableImage) :
  (width this < 4096 -> height this < 4096 ->
   Z.of_nat (String.length (url this)) < 4 * 1024 * 1024 ->
   tryDownscale this = ([], (this, Normal tt)))
  /\ (~ (width this < 4096 /\ height this < 4096
         /\ Z.of_nat (String.length (url this)) < 4 * 1024 * 1024) ->
      (height this < width this ->
       head (tryDownscale this).1 =
         Some (CallDownscale (url this) (Z.min (width this) 4096) 0))
      /\ (width this <= height this ->
          head (tryDownscale this).1 =
            Some (CallDownscale (url this) 0 (Z.min (height this) 4096))))
  /\ (width this = 5000 -> height this = 2000 ->
      head (tryDownscale this).1 = Some (CallDownscale (url this) 4096 0)).
Proof.
  assert (forall tw th,
    tw = targetWidth this -> th = targetHeight this ->
    ((width this <? MaxImageDim) && (height this <? MaxImageDim)
     && (strlen (url this) <? DownscaleImageSizeThreshold)) = false ->
    head (tryDownscale this).1 = Some (CallDownscale (url this) tw th))
    as Hcall.
  { intros tw th -> -> Hguard.
    unfold tryDownscale, mbind, Method_bind, get_this. rewrite Hguard.
    unfold try_catch, await, emit, liftC. cbn.
    destruct (downscale _ _ _); cbn; [|done].
    by destruct (loadImage _) as [? ? ? ?|[?|]]. }
  unfold targetWidth, targetHeight, MaxImageDim, DownscaleImageSizeThreshold,
    strlen in Hcall.
  split; [|split].
  - intros Hw Hh Hlen.
    unfold tryDownscale, mbind, Method_bind, get_this, MaxImageDim,
      DownscaleImageSizeThreshold, strlen.
    destruct (Z.ltb_spec (width this) 4096); [|lia].
    destruct (Z.ltb_spec (height this) 4096); [|lia].
    destruct (Z.ltb_spec (Z.of_nat (String.length (url this)))
                (4 * 1024 * 1024)); [|lia].
    reflexivity.
  - intros Hnot. split; intros Hcmp; apply Hcall.
    + destruct (Z.ltb_spec (height this) (width this)); [done|lia].
    + destruct (Z.leb_spec (width this) (height this)); [lia|done].
    + destruct (Z.ltb_spec (width this) 4096),
        (Z.ltb_spec (height this) 4096),
        (Z.ltb_spec (Z.of_nat (String.length (url this)))
           (4 * 1024 * 1024)); (done || lia).
    + destruct (Z.ltb_spec (height this) (width this)); [lia|done].
    + destruct (Z.leb_spec (width this) (height this)); [done|lia].
    + destruct (Z.ltb_spec (width this) 4096),
        (Z.ltb_spec (height this) 4096),
        (Z.ltb_spec (Z.of_nat (String.length (url this)))
           (4 * 1024 * 1024)); (done || lia).
  - intros Hw Hh. apply Hcall; rewrite Hw, Hh; reflexivity.
Qed.

(** [tryDownscale] never completes abruptly. *)
Lemma tryDownscale_resolves (this : ResizableImage) :
  (tryDownscale this).2.2 = Normal tt.
Proof.
  unfold tryDownscale, mbind, Method_bind, get_this.
  destruct (_ && _); [done|].
  unfold try_catch, await, emit, liftC. cbn.
  destruct (downscale _ _ _); cbn; [|done].
  by destruct (loadImage _) as [? ? ? ?|[?|]].
Qed.

(** When [downscale] itself rejects, the object is as it was and the
    failure is logged. *)
Lemma tryDownscale_downscale_rejected (this : ResizableImage) (e : Exn) :
  ~ (width this < 4096 /\ height this < 4096
     /\ Z.of_nat (String.length (url this)) < 4 * 1024 * 1024) ->
  downscale (url this) (targetWidth this) (targetHeight this) = Throw e ->
  tryDownscale this =
    ([CallDownscale (url this) (targetWidth this) (targetHeight this);
      LogDownscaleFailed (String.length (url this))
        (width this) (height this) e],
     (this, Normal tt)).
Proof.
  intros Hguard Hdown.
  unfold tryDownscale, mbind, Method_bind, get_this.
  replace (_ && _) with false; cycle 1.
  { unfold MaxImageDim, DownscaleImageSizeThreshold, strlen.
    destruct (Z.ltb_spec (width this) 4096),
      (Z.ltb_spec (height this) 4096),
      (Z.ltb_spec (Z.of_nat (String.length (url this)))
         (4 * 1024 * 1024)); (done || lia). }
  unfold try_catch, await, emit, liftC. cbn. by rewrite Hdown.
Qed.

(** When [downscale] resolves and measuring its result rejects, the
    failure is logged, the width and height are as they were, and the url
    is the one [downscale] returned. *)
Lemma tryDownscale_size_rejected (this : ResizableImage) (url' : string)
    (error : option Exn) :
  ~ (width this < 4096 /\ height this < 4096
     /\ Z.of_nat (String.length (url this)) < 4 * 1024 * 1024) ->
  downscale (url this) (targetWidth this) (targetHeight this)
    = Normal url' ->
  loadImage url' = ImgOnError error ->
  exists e,
    tryDownscale this =
      ([CallDownscale (url this) (targetWidth this) (targetHeight this);
        LoadImage url';
        LogDownscaleFailed (String.length (url this))
          (width this) (height this) e],
       (set_url url' this, Normal tt)).
Proof.
  intros Hguard Hdown Hload.
  unfold tryDownscale, mbind, Method_bind, get_this.
  replace (_ && _) with false; cycle 1.
  { unfold MaxImageDim, DownscaleImageSizeThreshold, strlen.
    destruct (Z.ltb_spec (width this) 4096),
      (Z.ltb_spec (height this) 4096),
      (Z.ltb_spec (Z.of_nat (String.length (url this)))
         (4 * 1024 * 1024)); (done || lia). }
  unfold try_catch, await, emit, liftC. cbn. rewrite Hdown. cbn.
  rewrite Hload. by destruct error; eexists.
Qed.

Lemma tryDownscale_no_upload (this : ResizableImage) :
  Forall (fun e => is_upload e = false) (tryDownscale this).1.
Proof.
  unfold tryDownscale, mbind, Method_bind, get_this.
  destruct (_ && _); [by constructor|].
  unfold try_catch, await, emit, liftC. cbn.
  destruct (downscale _ _ _); cbn; [|by repeat constructor].
  by destruct (loadImage _) as [? ? ? ?|[?|]]; repeat constructor.
Qed.

End Downscaling.

(** ** The upload entry point *)

Section Upload.

Context `{P : Platform}.

Lemma IO_bind_run {A B} (f : A -> IO B) (ev : list Event) (a : A) :
  (ev, Normal a) ≫= f = (ev ++ (f a).1, (f a).2).
Proof. unfold mbind, IO_bind. by destruct (f a). Qed.

Lemma IO_bind_events {A B} (f : A -> IO B) (m : IO A) (Q : Event -> Prop) :
  Forall Q m.1 -> (forall a, Forall Q (f a).1) -> Forall Q (m ≫= f).1.
Proof.
  intros Hm Hf. destruct m as [ev [a|e]]; [|done].
  rewrite IO_bind_run. apply Forall_app. split; [done|apply Hf].
Qed.

Lemma deriveImageAssetTypeAndUri_no_upload (image : ResizableImage)
    (type_ : option ImageAssetType) :
  Forall (fun e => is_upload e = false)
         (deriveImageAssetTypeAndUri image type_).1.
Proof.
  unfold deriveImageAssetTypeAndUri.
  destruct (parseDataUrl _) as [parsed|]; [|by repeat constructor].
  destruct (decide _); [by constructor|].
  destruct (decide _).
  - apply IO_bind_events; [by constructor|intros xml].
    apply IO_bind_events; [by constructor|intros svgElt]. cbv zeta.
    destruct (shouldBeIcon _ _); [by constructor|].
    by destruct type_; repeat constructor.
  - by destruct type_; repeat constructor.
Qed.

Lemma invoke_tryDownscale (fresh : ResizableImage) :
  invoke tryDownscale fresh =
    ((tryDownscale fresh).1, Normal (tt, (tryDownscale fresh).2.1)).
Proof.
  unfold invoke. pose proof (tryDownscale_resolves fresh) as Hres.
  destruct (tryDownscale fresh) as [ev [obj [[]|e]]]; [done|discriminate].
Qed.

(** What [maybeUploadImage] does once the classifier has answered
    [Icon]. *)
Lemma maybeUploadImage_icon (appCtx : AppCtx) (image : ResizableImage)
    (type_ : option ImageAssetType) (file : option FileOrString)
    (ev : list Event) (res : AssetTypeAndUri) :
  deriveImageAssetTypeAndUri image type_ = (ev, Normal (Some res)) ->
  type res = Icon ->
  let fresh :=
    mkResizableImage (dataUri res) (width image) (height image)
                     (scaledRoundedAspectRatio image) in
  maybeUploadImage appCtx image type_ file =
    (ev ++ (tryDownscale fresh).1,
     Normal (mkUploadOutcome
               (Some (tryDownscale fresh).2.1)
               (Some (mkImageAssetOpts Icon (iconColor res)
                                       (fileName file))))).
Proof.
  intros Hres Hicon fresh.
  unfold maybeUploadImage. rewrite Hres, IO_bind_run, Hicon.
  cbv zeta. fold fresh. rewrite invoke_tryDownscale.
  rewrite !IO_bind_run. cbn. rewrite !app_nil_r. reflexivity.
Qed.

(** C9. When the classifier answers [Icon], [maybeUploadImage] builds an
    image from the classified data URI and the input's width and height,
    runs [tryDownscale] on it and returns it with options of type [Icon];
    no event of the whole call is a call of the upload API. Whenever the
    upload API is called, the classifier has answered [Picture]. *)
Theorem icon_is_not_uploaded (appCtx : AppCtx) (image : ResizableImage)
    (type_ : option ImageAssetType) (file : option FileOrString) :
  (forall ev res,
      deriveImageAssetTypeAndUri image type_ = (ev, Normal (Some res)) ->
      type res = Icon ->
      exists ev' imageResult,
        tryDownscale
          (mkResizableImage (dataUri res) (width image) (height image)
                            (scaledRoundedAspectRatio image))
          = (ev', (imageResult, Normal tt))
        /\ maybeUploadImage appCtx image type_ file =
             (ev ++ ev',
              Normal (mkUploadOutcome
                        (Some imageResult)
                        (Some (mkImageAssetOpts Icon (iconColor res)
                                                (fileName file)))))
        /\ forall blob, ApiUploadImageFile blob ∉ ev ++ ev')
  /\ (forall blob,
         ApiUploadImageFile blob
           ∈ (maybeUploadImage appCtx image type_ file).1 ->
         exists ev res,
           deriveImageAssetTypeAndUri image type_ = (ev, Normal (Some res))
           /\ type res = Picture).
Proof.
  split.
  - intros ev res Hres Hicon.
    pose proof (maybeUploadImage_icon appCtx image type_ file ev res
                  Hres Hicon) as Hrun.
    cbv zeta in Hrun.
    set (fresh := mkResizableImage _ _ _ _) in *.
    exists (tryDownscale fresh).1, (tryDownscale fresh).2.1.
    split; [|split; [done|]].
    + pose proof (tryDownscale_resolves fresh) as Hok.
      destruct (tryDownscale fresh) as [ev' [obj c]]. simpl in *. by subst c.
    + intros blob Hin.
      assert (Forall (fun e => is_upload e = false)
                     (ev ++ (tryDownscale fresh).1)) as Hall.
      { apply Forall_app. split; [|apply tryDownscale_no_upload].
        pose proof (deriveImageAssetTypeAndUri_no_upload image type_) as H.
        by rewrite Hres in H. }
      rewrite Forall_forall in Hall. by specialize (Hall _ Hin).
  - intros blob Hin.
    destruct (deriveImageAssetTypeAndUri image type_)
      as [ev [[res|]|e]] eqn:Hres.
    + destruct (type res) eqn:Htype; [by exists ev, res|].
      exfalso.
      pose proof (maybeUploadImage_icon appCtx image type_ file ev res
                    Hres Htype) as Hrun.
      cbv zeta in Hrun. rewrite Hrun in Hin. simpl in Hin.
      assert (Forall (fun e => is_upload e = false)
                (ev ++ (tryDownscale
                          (mkResizableImage (dataUri res) (width image)
                             (height image)
                             (scaledRoundedAspectRatio image))).1)) as Hall.
      { apply Forall_app. split; [|apply tryDownscale_no_upload].
        pose proof (deriveImageAssetTypeAndUri_no_upload image type_) as H.
        by rewrite Hres in H. }
      rewrite Forall_forall in Hall. by specialize (Hall _ Hin).
    + exfalso. unfold maybeUploadImage in Hin.
      rewrite Hres, IO_bind_run in Hin. simpl in Hin.
      rewrite app_nil_r in Hin.
      pose proof (deriveImageAssetTypeAndUri_no_upload image type_) as H.
      rewrite Hres, Forall_forall in H. by specialize (H _ Hin).
    + exfalso. unfold maybeUploadImage in Hin. rewrite Hres in Hin.
      simpl in Hin.
      pose proof (deriveImageAssetTypeAndUri_no_upload image type_) as H.
      rewrite Hres, Forall_forall in H. by specialize (H _ Hin).
Qed.

(** C10. When the classifier returns undefined, [maybeUploadImage] returns
    the empty object, with neither [imageResult] nor [opts], and emits
    nothing beyond the classifier's own notification; this is what
    happens when the url does not parse as a data URL. *)
Theorem classification_failure_gives_empty_object (appCtx : AppCtx)
    (image : ResizableImage) (type_ : option ImageAssetType)
    (file : option FileOrString) :
  (forall ev,
      deriveImageAssetTypeAndUri image type_ = (ev, Normal None) ->
      maybeUploadImage appCtx image type_ file =
        (ev, Normal (mkUploadOutcome None None)))
  /\ (parseDataUrl (url image) = None ->
      maybeUploadImage appCtx image type_ file =
        ([NotificationError "Error loading image"],
         Normal (mkUploadOutcome None None))).
Proof.
  assert (forall ev,
    deriveImageAssetTypeAndUri image type_ = (ev, Normal None) ->
    maybeUploadImage appCtx image type_ file =
      (ev, Normal (mkUploadOutcome None None))) as Hempty.
  { intros ev Hres. unfold maybeUploadImage.
    rewrite Hres, IO_bind_run. simpl. by rewrite app_nil_r. }
  split; [done|].
  intros Hparse. apply Hempty.
  unfold deriveImageAssetTypeAndUri. by rewrite Hparse.
Qed.

End Upload.

(** * The properties on sample inputs *)

Section Samples.

Import Demo.

Lemma svg_data_url_oneColor :
  svg_data_url (P := offline) oneColorUrl oneColor.
Proof. do 2 eexists. repeat split; vm_compute; reflexivity. Defined.

Lemma svg_data_url_inherits :
  svg_data_url (P := offline) inheritsUrl inherits.
Proof. do 2 eexists. repeat split; vm_compute; reflexivity. Defined.

Lemma svg_data_url_twoColors :
  svg_data_url (P := offline) twoColorsUrl twoColors.
Proof. do 2 eexists. repeat split; vm_compute; reflexivity. Defined.

(** C3, as stated, fails: for the red square with a blue border and a
    request for [Icon], the classifier returns an icon and emits nothing,
    where the claim has undefined and an error notification. *)
Lemma icon_request_multicolor_counterexample :
  svg_data_url (P := offline) twoColorsUrl twoColors
  /\ size (gatherSvgColors (Platform := offline) twoColors) = 2%nat
  /\ ("currentcolor" ∉ gatherSvgColors (Platform := offline) twoColors)
  /\ deriveImageAssetTypeAndUri (P := offline)
       (mkResizableImage twoColorsUrl 24 24 None) (Some Icon)
     = ([], Normal (Some (mkAssetTypeAndUri
         "data:image/svg+xml;base64,PHN2ZyB4bWxucz0naHR0cDovL3d3dy53My5vcmcvMjAwMC9zdmcnIHdpZHRoPScxZW0nIGhlaWdodD0nMWVtJz48cmVjdCBmaWxsPScjRkYwMDAwJyBzdHJva2U9JyMwMDAwRkYnLz48L3N2Zz4="
         Icon None)))
  /\ deriveImageAssetTypeAndUri (P := offline)
       (mkResizableImage twoColorsUrl 24 24 None) (Some Icon)
     <> ([NotificationError
            "Can only use svg images with one color as icons"],
         Normal None).
Proof.
  split; [exact svg_data_url_twoColors|].
  split; [vm_compute; reflexivity|].
  split; [apply (bool_decide_unpack _); vm_compute; exact I|].
  split; [vm_compute; reflexivity|].
  vm_compute. intros [=].
Qed.

Lemma icon_request_accepts_multicolor_svg_witness :
  deriveImageAssetTypeAndUri (P := offline)
    (mkResizableImage twoColorsUrl 24 24 None) (Some Icon)
  = ([], Normal (Some (mkAssetTypeAndUri
       (as_svg_data_url (serialize (convert_svg_to_text_sized twoColors)))
       Icon None))).
Proof.
  apply (icon_request_accepts_multicolor_svg (P := offline)).
  - exact svg_data_url_twoColors.
  - vm_compute. lia.
  - apply (bool_decide_unpack _). vm_compute. exact I.
Defined.

Lemma single_color_svg_is_icon_witness :
  deriveImageAssetTypeAndUri (P := offline)
    (mkResizableImage oneColorUrl 24 24 None) None
  = ([], Normal (Some (mkAssetTypeAndUri
       (as_svg_data_url (serialize
          (clear_explicit_colors (convert_svg_to_text_sized oneColor))))
       Icon (Some "#ff0000"))))
  /\ deriveImageAssetTypeAndUri (P := offline)
       (mkResizableImage inheritsUrl 24 24 None) None
     = ([], Normal (Some (mkAssetTypeAndUri
          (as_svg_data_url (serialize
             (convert_svg_to_text_sized inherits)))
          Icon None))).
Proof.
  split.
  - apply (proj1 (single_color_svg_is_icon (P := offline)
                    (mkResizableImage oneColorUrl 24 24 None) oneColor
                    svg_data_url_oneColor)).
    + vm_compute. reflexivity.
    + intros [=].
    + reflexivity.
  - apply (proj2 (single_color_svg_is_icon (P := offline)
                    (mkResizableImage inheritsUrl 24 24 None) inherits
                    svg_data_url_inherits)).
    vm_compute. reflexivity.
Defined.



(** The red square under the media type [image/svg+xml;charset=utf-8]:
    the sanitizer returns it as it is, whether the remote API would have
    refused or cleaned the document, and the classifier then decodes it
    as the SVG it is. *)
Lemma sanitizeImageDataUrl_skips_svg_with_parameters_witness :
  sanitizeImageDataUrl (P := offline) failing charsetSvgUrl
  = ([], Normal (Some charsetSvgUrl))
  /\ sanitizeImageDataUrl (P := offline) cleaning charsetSvgUrl
     = ([], Normal (Some charsetSvgUrl))
  /\ deriveImageAssetTypeAndUri (P := offline)
       (mkResizableImage charsetSvgUrl 24 24 None) None
     = ([], Normal (Some (mkAssetTypeAndUri
          (as_svg_data_url (serialize
             (clear_explicit_colors (convert_svg_to_text_sized oneColor))))
          Icon (Some "#ff0000")))).
Proof.
  split; [|split].
  - eapply (sanitizeImageDataUrl_skips_svg_with_parameters (P := offline));
      [vm_compute; reflexivity|vm_compute; reflexivity|vm_compute; intros [=]].
  - eapply (sanitizeImageDataUrl_skips_svg_with_parameters (P := offline));
      [vm_compute; reflexivity|vm_compute; reflexivity|vm_compute; intros [=]].
  - vm_compute. reflexivity.
Defined.

Lemma sanitizeImageDataUrl_cases_witness :
  sanitizeImageDataUrl (P := offline) failing oneColorUrl
  = ([ApiProcessSvg (serialize oneColor)], Normal None)
  /\ sanitizeImageDataUrl (P := offline) cleaning oneColorUrl
     = ([ApiProcessSvg (serialize oneColor)],
        Normal (Some "data:image/svg+xml;base64,PHN2ZyB4bWxucz0naHR0cDovL3d3dy53My5vcmcvMjAwMC9zdmcnLz4="))
  /\ sanitizeImageDataUrl (P := offline) failing pngUrl = ([], Normal (Some pngUrl)).
Proof.
  split; [|split].
  - edestruct (proj1 (sanitizeImageDataUrl_cases (P := offline) failing oneColorUrl))
      as [Hfailure _]; [vm_compute; reflexivity..|].
    apply Hfailure. reflexivity.
  - edestruct (proj1 (sanitizeImageDataUrl_cases (P := offline) cleaning oneColorUrl))
      as [_ Hsuccess]; [vm_compute; reflexivity..|].
    exact (Hsuccess _ _ eq_refl).
  - apply (proj2 (sanitizeImageDataUrl_cases (P := offline) failing pngUrl)).
    intros parsed Hparsed. vm_compute in Hparsed.
    injection Hparsed as <-. intros [=].
Defined.

Lemma tryDownscale_target_witness :
  tryDownscale (P := offline) (mkResizableImage pngUrl 100 50 None)
  = ([], (mkResizableImage pngUrl 100 50 None, Normal tt))
  /\ head (tryDownscale (P := offline)
             (mkResizableImage pngUrl 100 5000 None)).1
     = Some (CallDownscale pngUrl 0 (Z.min 5000 4096))
  /\ head (tryDownscale (P := offline)
             (mkResizableImage pngUrl 5000 2000 None)).1
     = Some (CallDownscale pngUrl 4096 0).
Proof.
  split; [|split].
  - apply (proj1 (tryDownscale_target (P := offline)
                    (mkResizableImage pngUrl 100 50 None)));
      vm_compute; reflexivity.
  - apply (proj1 (proj2 (tryDownscale_target (P := offline)
                           (mkResizableImage pngUrl 100 5000 None)))).
    + simpl. lia.
    + simpl. lia.
  - apply (proj2 (proj2 (tryDownscale_target (P := offline)
                           (mkResizableImage pngUrl 5000 2000 None))));
      reflexivity.
Defined.

(** C8 fails on the code: [downscale] answers with a new url and the
    decoder then cannot load it. The failure is logged and the call
    resolves, but the image now carries the new url with the old width
    and height. *)
Lemma tryDownscale_failure_changes_url :
  tryDownscale (P := undecodable) (mkResizableImage pngUrl 5000 2000 None)
  = ([CallDownscale pngUrl 4096 0;
      LoadImage smallerPngUrl;
      LogDownscaleFailed 34 5000 2000
        (Thrown "Browser cannot load this image - if you believe this is a valid image file, please share it with team@plasmic.app.")],
     (mkResizableImage smallerPngUrl 5000 2000 None, Normal tt))
  /\ smallerPngUrl <> pngUrl.
Proof. split; [vm_compute; reflexivity|intros [=]]. Qed.

Lemma oneColor_classified :
  deriveImageAssetTypeAndUri (P := offline)
    (mkResizableImage oneColorUrl 24 24 None) None
  = ([], Normal (Some (mkAssetTypeAndUri
       (as_svg_data_url (serialize
          (clear_explicit_colors (convert_svg_to_text_sized oneColor))))
       Icon (Some "#ff0000")))).
Proof. vm_compute. reflexivity. Defined.

Lemma icon_is_not_uploaded_witness :
  maybeUploadImage (P := offline) failing (mkResizableImage oneColorUrl 24 24 None)
    None (Some (AFile "square.svg"))
  = ([],
     Normal (mkUploadOutcome
       (Some (mkResizableImage
                (as_svg_data_url (serialize
                   (clear_explicit_colors
                      (convert_svg_to_text_sized oneColor))))
                24 24 None))
       (Some (mkImageAssetOpts Icon (Some "#ff0000")
                               (Some "square.svg"))))).
Proof.
  destruct (proj1 (icon_is_not_uploaded (P := offline) failing
                     (mkResizableImage oneColorUrl 24 24 None)
                     None (Some (AFile "square.svg")))
              [] _ oneColor_classified eq_refl)
    as (ev' & imageResult & Hdown & Hrun & _).
  vm_compute in Hdown. injection Hdown as <- <-.
  rewrite Hrun. vm_compute. reflexivity.
Defined.

Lemma classification_failure_gives_empty_object_witness :
  maybeUploadImage (P := offline) failing (mkResizableImage "hello" 24 24 None) None None
  = ([NotificationError "Error loading image"],
     Normal (mkUploadOutcome None None)).
Proof.
  apply (proj2 (classification_failure_gives_empty_object (P := offline)
                  failing
                  (mkResizableImage "hello" 24 24 None) None None)).
  vm_compute. reflexivity.
Defined.

End Samples.

(** * Further properties *)

(** ** More on the GIF inspector *)

Lemma isAnimatedGif_inspectGif (dataUrl : string) :
  isAnimatedGif dataUrl =
    (binaryString ← Base64.atob (strip_data_url_prefix dataUrl);
     inspectGif (charCodes binaryString)).
Proof. reflexivity. Qed.

Lemma getUint8_lookup (bytes : list Z) (n : nat) (i : Z) :
  0 <= i ->
  getUint8 (mkDataView bytes n) i =
    match bytes !! (n + Z.to_nat i)%nat with
    | Some b => Normal b
    | None => Throw RangeError
    end.
Proof.
  intros Hi. unfold getUint8; simpl.
  destruct (Z.leb_spec 0 i); [|lia]. by rewrite lookup_drop.
Qed.

Lemma getUint16_lookup (bytes : list Z) (n : nat) (i : Z) :
  0 <= i ->
  getUint16 (mkDataView bytes n) i =
    match bytes !! (n + Z.to_nat i)%nat,
          bytes !! (n + Z.to_nat i + 1)%nat with
    | Some hi, Some lo => Normal (hi * 256 + lo)
    | _, _ => Throw RangeError
    end.
Proof.
  intros Hi. unfold getUint16; simpl.
  destruct (Z.leb_spec 0 i); [|lia]. rewrite !lookup_drop.
  by replace (n + Z.to_nat (i + 1))%nat with (n + Z.to_nat i + 1)%nat by lia.
Qed.

(** The inspector in terms of the bytes it reads. *)
Lemma inspectGif_reads (bytes : list Z) :
  inspectGif bytes =
    match bytes !! 10%nat with
    | None => Throw RangeError
    | Some packed =>
        match bytes !! gce_start packed,
              bytes !! (gce_start packed + 1)%nat with
        | Some e, Some l =>
            if extensionCheck e l then
              match bytes !! (gce_start packed + 4)%nat,
                    bytes !! (gce_start packed + 5)%nat with
              | Some hi, Some lo => Normal (0 <? hi * 256 + lo)
              | _, _ => Throw RangeError
              end
            else Normal false
        | _, _ => Throw RangeError
        end
    end.
Proof.
  unfold inspectGif.
  change (HEADER_LEN + LOGICAL_SCREEN_DESC_LEN - 3)%nat with 10%nat.
  unfold new_DataView. destruct (decide _) as [Hlen|Hlen].
  - change (Normal ?a ≫= ?f) with (f a). cbv beta.
    rewrite getUint8_lookup by lia. change (10 + Z.to_nat 0)%nat with 10%nat.
    destruct (bytes !! 10%nat) as [packed|]; [|done].
    change (Normal ?a ≫= ?f) with (f a). cbv beta zeta.
    rewrite high_bit_truthy. fold (gct_len packed).
    pose proof (gct_len_nonneg packed) as Hg.
    rewrite !getUint8_lookup, getUint16_lookup by lia.
    unfold gce_start.
    replace (10 + Z.to_nat (3 + gct_len packed))%nat
      with (6 + 7 + Z.to_nat (gct_len packed))%nat by lia.
    replace (10 + Z.to_nat (3 + gct_len packed + 1))%nat
      with (6 + 7 + Z.to_nat (gct_len packed) + 1)%nat by lia.
    replace (10 + Z.to_nat (3 + gct_len packed + 4))%nat
      with (6 + 7 + Z.to_nat (gct_len packed) + 4)%nat by lia.
    replace (6 + 7 + Z.to_nat (gct_len packed) + 4 + 1)%nat
      with (6 + 7 + Z.to_nat (gct_len packed) + 5)%nat by lia.
    set (g := (6 + 7 + Z.to_nat (gct_len packed))%nat).
    destruct (bytes !! g) as [e|]; [|done].
    change (Normal ?a ≫= ?f) with (f a). cbv beta.
    destruct (bytes !! (g + 1)%nat) as [l|]; [|done].
    change (Normal ?a ≫= ?f) with (f a). cbv beta.
    destruct (extensionCheck e l); [|done].
    destruct (bytes !! (g + 4)%nat) as [hi|]; [|done].
    by destruct (bytes !! (g + 5)%nat) as [lo|].
  - rewrite lookup_ge_None_2 by lia. done.
Qed.

Lemma gce_start_ge (packed : Z) : (13 <= gce_start packed)%nat.
Proof. unfold gce_start. lia. Qed.

Lemma length_charCodes (s : string) :
  length (charCodes s) = String.length s.
Proof.
  unfold charCodes. rewrite length_fmap.
  induction s as [|c s IH]; simpl; [done|]. by rewrite IH.
Qed.

(** X1. A payload that decodes to fewer than 15 bytes makes
    [isAnimatedGif] throw a [RangeError]: it never answers for an input
    too short to hold the two bytes it looks for after the Logical Screen
    Descriptor. *)
Theorem isAnimatedGif_truncated (dataUrl bin : string) :
  Base64.atob (strip_data_url_prefix dataUrl) = Normal bin ->
  (String.length bin < 15)%nat ->
  isAnimatedGif dataUrl = Throw RangeError.
Proof.
  intros Hbin Hlen. rewrite isAnimatedGif_inspectGif, Hbin.
  change (Normal ?a ≫= ?f) with (f a). cbv beta.
  rewrite inspectGif_reads.
  assert (length (charCodes bin) < 15)%nat as Hbytes.
  { by rewrite length_charCodes. }
  destruct (charCodes bin !! 10%nat) as [packed|]; [|done].
  pose proof (gce_start_ge packed).
  rewrite (lookup_ge_None_2 _ (gce_start packed + 1)) by lia.
  by destruct (charCodes bin !! gce_start packed).
Qed.

(** X3. When the two bytes found after the color table do not pass the
    extension check, [isAnimatedGif] returns false and reads nothing
    further: the input may end right after these two bytes. *)
Theorem isAnimatedGif_check_fails (dataUrl bin : string) (e l : Z) :
  Base64.atob (strip_data_url_prefix dataUrl) = Normal bin ->
  gce_bytes (charCodes bin) = Some (e, l) ->
  extensionCheck e l = false ->
  isAnimatedGif dataUrl = Normal false.
Proof.
  intros Hbin Hgce Hcheck. rewrite isAnimatedGif_inspectGif, Hbin.
  change (Normal ?a ≫= ?f) with (f a). cbv beta.
  rewrite inspectGif_reads. unfold gce_bytes in Hgce.
  destruct (charCodes bin !! 10%nat) as [packed|]; [|done].
  cbn -[gce_start] in Hgce.
  destruct (charCodes bin !! gce_start packed) as [e'|]; [|done].
  cbn -[gce_start] in Hgce.
  destruct (charCodes bin !! (gce_start packed + 1)%nat) as [l'|]; [|done].
  injection Hgce as -> ->. by rewrite Hcheck.
Qed.

Lemma forall_bytes (P : Z -> bool) :
  forallb P (map Z.of_nat (seq 0 256)) = true ->
  forall z, 0 <= z < 256 -> P z = true.
Proof.
  intros Hall z Hz. rewrite forallb_forall in Hall. apply Hall.
  apply in_map_iff. exists (Z.to_nat z). split; [lia|].
  apply in_seq. lia.
Qed.

(** X2. On byte values the extension check passes exactly when the
    first byte has bit 0 or bit 5 set and the second is none of 0, 2, 4
    and 6. *)
Theorem extensionCheck_bytes (e l : Z) :
  0 <= e < 256 -> 0 <= l < 256 ->
  extensionCheck e l = true <->
  (Z.testbit e 0 = true \/ Z.testbit e 5 = true)
  /\ l <> 0 /\ l <> 2 /\ l <> 4 /\ l <> 6.
Proof.
  intros He Hl. unfold extensionCheck.
  pose proof (forall_bytes
    (fun e => Bool.eqb (truthy (Z.land e 0x21))
                       (Z.testbit e 0 || Z.testbit e 5))
    eq_refl e He) as H1.
  pose proof (forall_bytes
    (fun l => Bool.eqb (truthy (Z.land l 0xf9))
                (negb ((l =? 0) || (l =? 2) || (l =? 4) || (l =? 6))))
    eq_refl l Hl) as H2.
  apply Bool.eqb_prop in H1, H2. rewrite H1, H2.
  rewrite andb_true_iff, orb_true_iff, negb_true_iff, !orb_false_iff.
  rewrite !Z.eqb_neq. tauto.
Qed.

(** X4. When the color table is followed by the looping Application
    Extension ([0x21 0xFF 0x0B NETSCAPE2.0]), as in the files animation
    encoders write, [isAnimatedGif] returns true whatever follows: the
    bytes it reads as the delay are the letters E and T. *)
Theorem isAnimatedGif_netscape (dataUrl bin : string) (packed : Z) :
  Base64.atob (strip_data_url_prefix dataUrl) = Normal bin ->
  charCodes bin !! 10%nat = Some packed ->
  take 14 (drop (gce_start packed) (charCodes bin)) = netscape_extension ->
  isAnimatedGif dataUrl = Normal true.
Proof.
  intros Hbin Hpacked Hext. rewrite isAnimatedGif_inspectGif, Hbin.
  change (Normal ?a ≫= ?f) with (f a). cbv beta.
  rewrite inspectGif_reads, Hpacked.
  assert (forall i b, netscape_extension !! i = Some b ->
            charCodes bin !! (gce_start packed + i)%nat = Some b) as Hat.
  { intros i b Hi. rewrite <- lookup_drop.
    rewrite <- Hext in Hi. by apply lookup_take_Some in Hi as [? _]. }
  rewrite <- (Nat.add_0_r (gce_start packed)) at 1.
  rewrite (Hat 0%nat 0x21), (Hat 1%nat 0xFF), (Hat 4%nat 69), (Hat 5%nat 84)
    by reflexivity.
  reflexivity.
Qed.

Lemma lookup_from_drop (b1 b2 : list Z) (n i : nat) :
  drop n b1 = drop n b2 -> b1 !! (n + i)%nat = b2 !! (n + i)%nat.
Proof. intros H. by rewrite <- !lookup_drop, H. Qed.

(** X5. [isAnimatedGif] depends on the decoded bytes from offset 10 on
    only: the signature, the version and the screen size are never
    looked at, and two payloads that agree from offset 10 on get the same
    answer, or the same exception. *)
Theorem isAnimatedGif_ignores_header (dataUrl1 dataUrl2 bin1 bin2 : string) :
  Base64.atob (strip_data_url_prefix dataUrl1) = Normal bin1 ->
  Base64.atob (strip_data_url_prefix dataUrl2) = Normal bin2 ->
  drop 10 (charCodes bin1) = drop 10 (charCodes bin2) ->
  isAnimatedGif dataUrl1 = isAnimatedGif dataUrl2.
Proof.
  intros H1 H2 Hdrop. rewrite !isAnimatedGif_inspectGif, H1, H2.
  change (Normal ?a ≫= ?f) with (f a). cbv beta.
  rewrite !inspectGif_reads.
  pose proof (lookup_from_drop _ _ 10 0 Hdrop) as H10. simpl in H10.
  rewrite H10.
  destruct (charCodes bin2 !! 10%nat) as [packed|]; [|done].
  assert (forall k, charCodes bin1 !! (gce_start packed + k)%nat
                    = charCodes bin2 !! (gce_start packed + k)%nat) as Hk.
  { intros k. unfold gce_start.
    replace (6 + 7 + Z.to_nat (gct_len packed) + k)%nat
      with (10 + (3 + Z.to_nat (gct_len packed) + k))%nat by lia.
    by apply lookup_from_drop. }
  pose proof (Hk 0%nat) as H0. rewrite Nat.add_0_r in H0.
  by rewrite H0, !Hk.
Qed.

Lemma after_first_comma_app (prefix payload : string) :
  after_first_comma prefix = None ->
  after_first_comma (prefix +:+ "," +:+ payload) = Some payload.
Proof.
  induction prefix as [|c prefix IH]; simpl; [done|].
  destruct (Ascii.eqb c ","); [done|]. apply IH.
Qed.

(** X6. Whatever stands before the first comma of the data URL, the
    media type included, has no influence on [isAnimatedGif]. *)
Theorem isAnimatedGif_ignores_prefix (prefix1 prefix2 payload : string) :
  after_first_comma prefix1 = None ->
  after_first_comma prefix2 = None ->
  isAnimatedGif (prefix1 +:+ "," +:+ payload)
  = isAnimatedGif (prefix2 +:+ "," +:+ payload).
Proof.
  intros H1 H2. rewrite !isAnimatedGif_inspectGif.
  unfold strip_data_url_prefix. by rewrite !after_first_comma_app.
Qed.

(** ** More on the classifier *)

Section ClassifierCases.

Context `{P : Platform}.

(** The three ways the classifier ends without a result: the url is not a
    data URL, or an icon is requested for content that is not SVG. *)
Lemma deriveImageAssetTypeAndUri_outcomes (image : ResizableImage)
    (type_ : option ImageAssetType) :
  (exists res, deriveImageAssetTypeAndUri image type_
               = ([], Normal (Some res)))
  \/ (exists e, deriveImageAssetTypeAndUri image type_ = ([], Throw e))
  \/ deriveImageAssetTypeAndUri image type_
     = ([NotificationError "Error loading image"], Normal None)
  \/ deriveImageAssetTypeAndUri image type_
     = ([NotificationError "Can only use svg images as icons"], Normal None).
Proof.
  unfold deriveImageAssetTypeAndUri.
  destruct (parseDataUrl (url image)) as [parsed|]; [|by right; right; left].
  destruct (decide (type_ = Some Picture)) as [_|Hpic];
    [by left; eexists|].
  destruct (decide (contentType parsed = Some SVG_CONTENT_TYPE)) as [_|_].
  - destruct (Base64.atob (data parsed)) as [xml|e];
      [|by right; left; eexists].
    rewrite IO_bind_Normal.
    destruct (parseSvgXml xml) as [svgElt|e]; [|by right; left; eexists].
    rewrite IO_bind_Normal. cbv zeta.
    destruct (shouldBeIcon type_ (gatherSvgColors svgElt)) eqn:Hicon;
      [by left; eexists|].
    destruct type_ as [[|]|]; [done| |by left; eexists].
    unfold shouldBeIcon in Hicon.
    by rewrite bool_decide_eq_true_2 in Hicon.
  - destruct type_ as [[|]|]; [done| |by left; eexists].
    by right; right; right.
Qed.

(** X7. The classifier returns undefined exactly with one error
    notification: a run that returns undefined has emitted one
    [notification.error] and nothing else, and a run that returns a result
    or throws has emitted nothing. *)
Theorem deriveImageAssetTypeAndUri_notifies_on_undefined
    (image : ResizableImage) (type_ : option ImageAssetType)
    (ev : list Event) (c : Completion (option AssetTypeAndUri)) :
  deriveImageAssetTypeAndUri image type_ = (ev, c) ->
  match c with
  | Normal None => exists message, ev = [NotificationError message]
  | Normal (Some _) => ev = []
  | Throw _ => ev = []
  end.
Proof.
  intros Hrun.
  destruct (deriveImageAssetTypeAndUri_outcomes image type_)
    as [[res H]|[[e H]|[H|H]]]; rewrite H in Hrun;
    injection Hrun as <- <-; eauto.
Qed.

(** X8. The message "Can only use svg images with one color as icons" is
    never shown, for any image and any requested type. *)
Theorem one_color_message_is_never_shown (image : ResizableImage)
    (type_ : option ImageAssetType) :
  NotificationError "Can only use svg images with one color as icons"
    ∉ (deriveImageAssetTypeAndUri image type_).1.
Proof.
  destruct (deriveImageAssetTypeAndUri_outcomes image type_)
    as [[res H]|[[e H]|[H|H]]]; rewrite H; simpl.
  - apply not_elem_of_nil.
  - apply not_elem_of_nil.
  - by intros [=]%list_elem_of_singleton.
  - by intros [=]%list_elem_of_singleton.
Qed.

(** X9. When [Picture] is requested, or the content type is not SVG, the
    payload is never decoded: the classifier does not throw, returns the
    url unchanged as a [Picture] when the request is [Picture] or absent,
    and refuses an [Icon] request with "Can only use svg images as
    icons". *)
Theorem classification_without_decoding (image : ResizableImage)
    (type_ : option ImageAssetType) (parsed : ParsedDataUrl) :
  parseDataUrl (url image) = Some parsed ->
  type_ = Some Picture \/ contentType parsed <> Some SVG_CONTENT_TYPE ->
  deriveImageAssetTypeAndUri image type_ =
    match type_ with
    | Some Icon =>
        ([NotificationError "Can only use svg images as icons"],
         Normal None)
    | _ => ([], Normal (Some (mkAssetTypeAndUri (url image) Picture None)))
    end.
Proof.
  intros Hparse Hcase. unfold deriveImageAssetTypeAndUri. rewrite Hparse.
  destruct (decide (type_ = Some Picture)) as [->|Hpic]; [done|].
  destruct Hcase as [?|Hct]; [done|].
  destruct (decide _) as [|_]; [done|]. by destruct type_ as [[|]|].
Qed.

(** X10. The classifier throws only while decoding SVG content: the
    requested type is not [Picture], the content type is SVG, and the
    exception is the one [atob] raised on the payload or [parseSvgXml]
    raised on the decoded text. *)
Theorem classification_throws_only_when_decoding (image : ResizableImage)
    (type_ : option ImageAssetType) (ev : list Event) (e : Exn) :
  deriveImageAssetTypeAndUri image type_ = (ev, Throw e) ->
  type_ <> Some Picture
  /\ exists parsed,
       parseDataUrl (url image) = Some parsed
       /\ contentType parsed = Some SVG_CONTENT_TYPE
       /\ (Base64.atob (data parsed) = Throw e
           \/ exists xml, Base64.atob (data parsed) = Normal xml
                          /\ parseSvgXml xml = Throw e).
Proof.
  unfold deriveImageAssetTypeAndUri.
  destruct (parseDataUrl (url image)) as [parsed|]; [|done].
  destruct (decide (type_ = Some Picture)) as [->|Hpic]; [done|].
  destruct (decide (contentType parsed = Some SVG_CONTENT_TYPE))
    as [Hct|_]; [|by destruct type_ as [[|]|]].
  destruct (Base64.atob (data parsed)) as [xml|e'] eqn:Hatob.
  - rewrite IO_bind_Normal.
    destruct (parseSvgXml xml) as [svgElt|e''] eqn:Hxml.
    + rewrite IO_bind_Normal. cbv zeta.
      destruct (shouldBeIcon _ _); [done|]. by destruct type_ as [[|]|].
    + intros [= <- <-]. split; [done|]. exists parsed. eauto 10.
  - intros [= <- <-]. split; [done|]. exists parsed. eauto 10.
Qed.

(** X11. Every result of the classifier is well formed: a [Picture]
    carries the image's own url and no icon color, the icon color is
    never [currentcolor], and a requested type is the type returned. *)
Theorem classification_result_invariants (image : ResizableImage)
    (type_ : option ImageAssetType) (ev : list Event)
    (res : AssetTypeAndUri) :
  deriveImageAssetTypeAndUri image type_ = (ev, Normal (Some res)) ->
  (type res = Picture -> dataUri res = url image /\ iconColor res = None)
  /\ iconColor res <> Some "currentcolor"
  /\ (type_ = Some Icon -> type res = Icon)
  /\ (type_ = Some Picture -> type res = Picture).
Proof.
  unfold deriveImageAssetTypeAndUri.
  destruct (parseDataUrl (url image)) as [parsed|]; [|done].
  destruct (decide (type_ = Some Picture)) as [->|Hpic];
    [by intros [= <- <-]|].
  destruct (decide (contentType parsed = Some SVG_CONTENT_TYPE)) as [_|_].
  - destruct (Base64.atob (data parsed)) as [xml|e]; [|done].
    rewrite IO_bind_Normal.
    destruct (parseSvgXml xml) as [svgElt|e]; [|done].
    rewrite IO_bind_Normal. cbv zeta.
    destruct (shouldBeIcon type_ (gatherSvgColors svgElt)) eqn:Hicon.
    + intros [= <- <-]. simpl. repeat split; try done.
      destruct (decide _) as [Heq|Hne]; [done|]. done.
    + destruct type_ as [[|]|]; [done|done|].
      intros [= <- <-]. by simpl.
  - destruct type_ as [[|]|]; [done|done|].
    intros [= <- <-]. by simpl.
Qed.

Lemma size_one_singleton (colors : gset string) :
  size colors = 1%nat <-> exists c, colors = {[ c ]}.
Proof.
  split.
  - intros (c & Hc)%size_1_elem_of. exists c. by apply leibniz_equiv.
  - intros [c ->]. apply size_singleton.
Qed.

(** What the classifier does on a data URL whose content type is SVG
    when the payload cannot be decoded or parsed: it throws what [atob]
    or [parseSvgXml] threw, and emits nothing. *)
Lemma deriveImageAssetTypeAndUri_svg_throws (image : ResizableImage)
    (type_ : option ImageAssetType) (parsed : ParsedDataUrl) (e : Exn) :
  parseDataUrl (url image) = Some parsed ->
  contentType parsed = Some SVG_CONTENT_TYPE ->
  type_ <> Some Picture ->
  Base64.atob (data parsed) ≫= parseSvgXml = Throw e ->
  deriveImageAssetTypeAndUri image type_ = ([], Throw e).
Proof.
  intros Hparse Hct Htype Hthrow.
  unfold deriveImageAssetTypeAndUri. rewrite Hparse.
  destruct (decide (type_ = Some Picture)) as [|_]; [done|].
  destruct (decide (contentType parsed = Some SVG_CONTENT_TYPE)) as [_|];
    [|done].
  destruct (Base64.atob (data parsed)) as [xml|e']; simpl in Hthrow.
  - rewrite IO_bind_Normal, Hthrow. reflexivity.
  - injection Hthrow as ->. reflexivity.
Qed.

(** X12. With no requested type, on a data URL whose content type is SVG
    the classifier throws what [atob] throws on the payload or
    [parseSvgXml] on the decoded text; when both succeed it always
    classifies, and the result is an icon exactly when the colors of the
    document include [currentcolor], or it has no color, or its only
    color does not start with [url]. *)
Theorem svg_without_request_decision (image : ResizableImage)
    (parsed : ParsedDataUrl) :
  parseDataUrl (url image) = Some parsed ->
  contentType parsed = Some SVG_CONTENT_TYPE ->
  match Base64.atob (data parsed) ≫= parseSvgXml with
  | Throw e => deriveImageAssetTypeAndUri image None = ([], Throw e)
  | Normal svgElt =>
      exists res,
        deriveImageAssetTypeAndUri image None = ([], Normal (Some res))
        /\ (type res = Icon <->
            "currentcolor" ∈ gatherSvgColors svgElt
            \/ gatherSvgColors svgElt = ∅
            \/ exists c, gatherSvgColors svgElt = {[ c ]}
                         /\ String.prefix "url" c = false)
  end.
Proof.
  intros Hparse Hct.
  destruct (Base64.atob (data parsed) ≫= parseSvgXml) as [svgElt|e]
    eqn:Hdecode; [|by eapply deriveImageAssetTypeAndUri_svg_throws].
  assert (svg_data_url (url image) svgElt) as Hsvg.
  { destruct (Base64.atob (data parsed)) as [xml|] eqn:Hatob; [|done].
    by exists parsed, xml. }
  rewrite (deriveImageAssetTypeAndUri_svg _ _ _ Hsvg) by done. cbv zeta.
  set (colors := gatherSvgColors svgElt).
  assert (shouldBeIcon None colors = true <->
          "currentcolor" ∈ colors \/ colors = ∅
          \/ exists c, colors = {[ c ]} /\ String.prefix "url" c = false)
    as Hiff.
  { unfold shouldBeIcon.
    rewrite (bool_decide_eq_false_2 (None = Some Icon)) by done.
    rewrite orb_false_l, orb_true_iff, bool_decide_eq_true.
    rewrite andb_true_iff, orb_true_iff, Nat.leb_le, Nat.eqb_eq.
    rewrite size_empty_iff, leibniz_equiv_iff.
    split.
    - intros [?|[Hle [?|Hall]]]; [tauto|tauto|].
      destruct (decide (size colors = 0%nat)) as [H0|H0].
      { apply size_empty_iff, leibniz_equiv_iff in H0. tauto. }
      assert (size colors = 1%nat) as (c & Hc)%size_one_singleton by lia.
      right; right. exists c. split; [done|].
      rewrite Hc, elements_singleton in Hall. simpl in Hall.
      by destruct (String.prefix "url" c).
    - intros [?|[->|(c & -> & Hc)]]; [tauto| |].
      + right. rewrite size_empty. split; [lia|tauto].
      + right. rewrite size_singleton, elements_singleton. simpl.
        rewrite Hc. split; [lia|tauto]. }
  destruct (shouldBeIcon None colors); eexists; (split; [done|]); simpl.
  - split; [intros _; by apply Hiff|done].
  - split; [done|]. intros H. apply Hiff in H. done.
Qed.

(** X13. A request for [Icon] on a data URL whose content type is SVG
    is never refused: the classifier throws what [atob] throws on the
    payload or [parseSvgXml] on the decoded text, and when both succeed
    it gives an icon and no notification. With a single color other than
    [currentcolor] the icon color is that color, a [url] reference
    included, and the colors are cleared; with two or more colors there
    is no icon color. *)
Theorem icon_request_on_svg (image : ResizableImage)
    (parsed : ParsedDataUrl) :
  parseDataUrl (url image) = Some parsed ->
  contentType parsed = Some SVG_CONTENT_TYPE ->
  match Base64.atob (data parsed) ≫= parseSvgXml with
  | Throw e => deriveImageAssetTypeAndUri image (Some Icon) = ([], Throw e)
  | Normal svgElt =>
      exists uri color,
        deriveImageAssetTypeAndUri image (Some Icon)
        = ([], Normal (Some (mkAssetTypeAndUri uri Icon color)))
        /\ (forall c, gatherSvgColors svgElt = {[ c ]} ->
                      c <> "currentcolor" ->
                      color = Some c
                      /\ uri = asSvgDataUrl (serializeToString
                                 (clearExplicitColors
                                    (convertSvgToTextSized svgElt))))
        /\ ((2 <= size (gatherSvgColors svgElt))%nat -> color = None)
  end.
Proof.
  intros Hparse Hct.
  destruct (Base64.atob (data parsed) ≫= parseSvgXml) as [svgElt|e]
    eqn:Hdecode; [|by eapply deriveImageAssetTypeAndUri_svg_throws].
  assert (svg_data_url (url image) svgElt) as Hsvg.
  { destruct (Base64.atob (data parsed)) as [xml|] eqn:Hatob; [|done].
    by exists parsed, xml. }
  rewrite (deriveImageAssetTypeAndUri_svg _ _ _ Hsvg) by done. cbv zeta.
  unfold shouldBeIcon.
  rewrite (bool_decide_eq_true_2 (Some Icon = Some Icon)) by done.
  cbn [orb]. do 2 eexists. split; [done|]. split.
  - intros c Hc Hcur. rewrite Hc, size_singleton, elements_singleton.
    rewrite (bool_decide_eq_false_2 ("currentcolor" ∈ _))
      by (rewrite elem_of_singleton; congruence).
    cbn. split; [|done].
    destruct (decide (Some c = Some "currentcolor")); [congruence|done].
  - intros Hsize.
    destruct (Nat.eqb_spec (size (gatherSvgColors svgElt)) 1); [lia|].
    by destruct (decide _).
Qed.

End ClassifierCases.

(** ** More on downscaling *)

Section DownscalingCases.

Context `{P : Platform}.

Lemma tryDownscale_guard_false (this : ResizableImage) :
  ~ (width this < 4096 /\ height this < 4096
     /\ Z.of_nat (String.length (url this)) < 4 * 1024 * 1024) ->
  (width this <? MaxImageDim) && (height this <? MaxImageDim)
  && (strlen (url this) <? DownscaleImageSizeThreshold) = false.
Proof.
  intros Hguard. unfold MaxImageDim, DownscaleImageSizeThreshold, strlen.
  destruct (Z.ltb_spec (width this) 4096),
    (Z.ltb_spec (height this) 4096),
    (Z.ltb_spec (Z.of_nat (String.length (url this)))
       (4 * 1024 * 1024)); (done || lia).
Qed.

(** X14. When [downscale] resolves and its result loads, [tryDownscale]
    replaces the url by the downscaled one and the width and height by
    the loaded image's natural size, or by its [width] and [height] where
    the natural size is 0; it logs once and keeps the aspect ratio. *)
Theorem tryDownscale_success (this : ResizableImage) (url' : string)
    (naturalWidth imgWidth naturalHeight imgHeight : Z) :
  ~ (width this < 4096 /\ height this < 4096
     /\ Z.of_nat (String.length (url this)) < 4 * 1024 * 1024) ->
  downscale (url this) (targetWidth this) (targetHeight this)
    = Normal url' ->
  loadImage url' = ImgOnLoad naturalWidth imgWidth naturalHeight imgHeight ->
  let width' := if naturalWidth =? 0 then imgWidth else naturalWidth in
  let height' := if naturalHeight =? 0 then imgHeight else naturalHeight in
  tryDownscale this =
    ([CallDownscale (url this) (targetWidth this) (targetHeight this);
      LoadImage url';
      LogDownscaled (String.length (url this)) (String.length url')
        (width this) (height this) width' height'],
     (mkResizableImage url' width' height' (aspectRatio this), Normal tt)).
Proof.
  intros Hguard Hdown Hload width' height'.
  unfold tryDownscale, mbind, Method_bind, get_this.
  rewrite (tryDownscale_guard_false this Hguard).
  unfold try_catch, await, emit, liftC. cbn. rewrite Hdown. cbn.
  rewrite Hload. cbn. unfold num_or, truthy, width', height'.
  by destruct (naturalWidth =? 0), (naturalHeight =? 0).
Qed.

Lemma tryDownscale_cases (this : ResizableImage) :
  tryDownscale this = ([], (this, Normal tt))
  \/ exists ev url' w' h',
       tryDownscale this =
         (CallDownscale (url this) (targetWidth this) (targetHeight this)
            :: ev,
          (mkResizableImage url' w' h' (aspectRatio this), Normal tt))
       /\ Forall (fun e => is_downscale_request e = false) ev
       /\ (length ev <= 2)%nat.
Proof.
  unfold tryDownscale, mbind, Method_bind, get_this.
  destruct (_ && _); [by left|]. right.
  unfold try_catch, await, emit, liftC. cbn.
  destruct (downscale _ _ _) as [url'|e]; cbn.
  - destruct (loadImage url') as [nw w nh h|[e|]]; cbn.
    + eexists _, url', _, _. split; [reflexivity|].
      split; [by repeat constructor|simpl; lia].
    + eexists _, url', _, _. split; [reflexivity|].
      split; [by repeat constructor|simpl; lia].
    + eexists _, url', _, _. split; [reflexivity|].
      split; [by repeat constructor|simpl; lia].
  - eexists _, (url this), (width this), (height this).
    destruct this. split; [reflexivity|].
    split; [by repeat constructor|simpl; lia].
Qed.

(** X15. [tryDownscale] always resolves, never changes the aspect
    ratio, asks [downscale] at most once, and leaves the object as it was
    when it emits nothing. *)
Theorem tryDownscale_best_effort (this : ResizableImage) :
  (tryDownscale this).2.2 = Normal tt
  /\ aspectRatio (tryDownscale this).2.1 = aspectRatio this
  /\ (length (filter (fun e => is_downscale_request e = true)
                     (tryDownscale this).1) <= 1)%nat
  /\ ((tryDownscale this).1 = [] -> (tryDownscale this).2.1 = this).
Proof.
  destruct (tryDownscale_cases this)
    as [H|(ev & url' & w' & h' & H & Hev & _)]; rewrite H; cbn [fst snd].
  - split; [done|]. split; [done|]. split; [simpl; lia|done].
  - split; [done|]. split; [done|]. split; [|done].
    rewrite filter_cons_True by done. simpl.
    assert (filter (fun e => is_downscale_request e = true) ev = []) as ->;
      [|simpl; lia].
    clear H. induction Hev as [|e ev He _ IH]; [done|].
    rewrite filter_cons_False by congruence. done.
Qed.

(** X16. For an image of non-negative size, every request
    [tryDownscale] sends to [downscale] is for the image's url, asks for
    at most 4096 in each dimension and leaves at least one dimension at
    0; both are 0 only for an image of size 0 by 0. *)
Theorem downscale_request_bounds (this : ResizableImage)
    (u : string) (tw th : Z) :
  0 <= width this -> 0 <= height this ->
  CallDownscale u tw th ∈ (tryDownscale this).1 ->
  u = url this
  /\ 0 <= tw <= 4096 /\ 0 <= th <= 4096
  /\ (tw = 0 \/ th = 0)
  /\ (tw = 0 /\ th = 0 -> width this = 0 /\ height this = 0).
Proof.
  intros Hw Hh Hin.
  destruct (tryDownscale_cases this) as [H|(ev & url' & w' & h' & H & Hev & _)];
    rewrite H in Hin; simpl in Hin.
  - by apply not_elem_of_nil in Hin.
  - apply elem_of_cons in Hin as [[= -> -> ->]|Hin].
    + unfold targetWidth, targetHeight, MaxImageDim.
      destruct (Z.ltb_spec (height this) (width this)),
        (Z.leb_spec (width this) (height this)); (split; [done|lia]).
    + rewrite Forall_forall in Hev. by apply Hev in Hin.
Qed.

End DownscalingCases.

(** ** More on the upload entry point *)

Section UploadCases.

Context `{P : Platform}.

(** X17. For a [Picture], [maybeUploadImage] uploads the blob of the
    classified data URI once and returns the stored URI with the stored
    width, height and aspect ratio, each falling back to the input
    image's; a non-empty [warning] is shown once. The picture is not
    downscaled locally and no image is loaded. *)
Theorem maybeUploadImage_picture (appCtx : AppCtx) (image : ResizableImage)
    (type_ : option ImageAssetType) (file : option FileOrString)
    (ev : list Event) (res : AssetTypeAndUri) (blob : Blob)
    (uploaded : UploadedImage) :
  deriveImageAssetTypeAndUri image type_ = (ev, Normal (Some res)) ->
  type res = Picture ->
  imageDataUriToBlob (dataUri res) = Normal blob ->
  uploadImageFile appCtx blob = Normal uploaded ->
  maybeUploadImage appCtx image type_ file =
    (ev ++ ApiUploadImageFile blob
        :: match up_warning uploaded with
           | Some warning =>
               if String.eqb warning "" then []
               else [NotificationWarn warning]
           | None => []
           end,
     Normal (mkUploadOutcome
       (Some (mkResizableImage
                (up_dataUri uploaded)
                (default (width image) (up_width uploaded))
                (default (height image) (up_height uploaded))
                (match up_aspectRatio uploaded with
                 | Some r => Some r
                 | None => aspectRatio image
                 end)))
       (Some (mkImageAssetOpts Picture (iconColor res) (fileName file))))).
Proof.
  intros Hres Hpic Hblob Hup. unfold maybeUploadImage.
  rewrite Hres, IO_bind_run, Hpic, Hblob, IO_bind_Normal, Hup.
  unfold actualAspectRatio, emit, liftC, mbind, IO_bind, mret, IO_ret.
  cbn [fst snd].
  destruct (up_warning uploaded) as [warning|];
    [destruct (String.eqb warning "")|];
    destruct (up_aspectRatio uploaded); reflexivity.
Qed.

(** X18. [maybeUploadImage] throws only when the classifier throws, or,
    for a [Picture], when the conversion to a blob throws (before any
    upload) or the single upload call rejects. The [Icon] path never
    throws. *)
Theorem maybeUploadImage_throws (appCtx : AppCtx) (image : ResizableImage)
    (type_ : option ImageAssetType) (file : option FileOrString)
    (ev : list Event) (e : Exn) :
  maybeUploadImage appCtx image type_ file = (ev, Throw e) ->
  deriveImageAssetTypeAndUri image type_ = (ev, Throw e)
  \/ exists ev0 res,
       deriveImageAssetTypeAndUri image type_ = (ev0, Normal (Some res))
       /\ type res = Picture
       /\ ((imageDataUriToBlob (dataUri res) = Throw e /\ ev = ev0)
           \/ exists blob,
                imageDataUriToBlob (dataUri res) = Normal blob
                /\ uploadImageFile appCtx blob = Throw e
                /\ ev = ev0 ++ [ApiUploadImageFile blob]).
Proof.
  unfold maybeUploadImage.
  destruct (deriveImageAssetTypeAndUri image type_) as [ev0 [[res|]|e0]].
  - rewrite IO_bind_run. destruct (type res) eqn:Htype.
    + intros Hrun. right. exists ev0, res. split; [done|]. split; [done|].
      destruct (imageDataUriToBlob (dataUri res)) as [blob|e1].
      * right. exists blob. split; [done|]. rewrite IO_bind_Normal in Hrun.
        destruct (uploadImageFile appCtx blob) as [uploaded|e2].
        -- exfalso. revert Hrun.
           unfold emit, liftC, mbind, IO_bind, mret, IO_ret. cbn [fst snd].
           destruct (up_warning uploaded) as [warning|];
             [destruct (String.eqb warning "")|]; discriminate.
        -- simpl in Hrun. by injection Hrun as <- <-.
      * left. simpl in Hrun. injection Hrun as <- <-.
        by rewrite app_nil_r.
    + cbv zeta. rewrite invoke_tryDownscale, !IO_bind_run. discriminate.
  - rewrite IO_bind_run. discriminate.
  - intros [= <- <-]. by left.
Qed.

End UploadCases.

(** ** Reading files and the clipboard *)

Lemma prefix_app_l (p a b : string) :
  String.prefix p a = true -> String.prefix p (a +:+ b) = true.
Proof.
  revert a. induction p as [|c p IH]; intros a;
    [intros _; by destruct (a +:+ b)|].
  destruct a as [|d a]; simpl; [done|].
  destruct (ascii_dec c d); [apply IH|done].
Qed.

Lemma includes_app_l (p a b : string) :
  includes p a = true -> includes p (a +:+ b) = true.
Proof.
  induction a as [|c a IH]; simpl.
  - rewrite orb_false_r. intros H.
    destruct p; [by destruct b|done].
  - intros [H|H]%orb_true_iff; apply orb_true_iff.
    + left. by apply (prefix_app_l p (String c a)).
    + right. by apply IH.
Qed.

Lemma includes_unfold (pat s : string) :
  includes pat s =
    String.prefix pat s
    || match s with
       | EmptyString => false
       | String _ rest => includes pat rest
       end.
Proof. by destruct s. Qed.

Lemma replace_first_unfold (pat rep s : string) :
  replace_first pat rep s =
    if String.prefix pat s
    then rep +:+ String.substring (String.length pat)
                   (String.length s - String.length pat) s
    else match s with
         | EmptyString => EmptyString
         | String c rest => String c (replace_first pat rep rest)
         end.
Proof. by destruct s. Qed.

(** A text without the pattern is left as it is. *)
Lemma replace_first_absent (pat rep s : string) :
  includes pat s = false -> replace_first pat rep s = s.
Proof.
  induction s as [|c s IH]; rewrite includes_unfold, replace_first_unfold;
    intros [-> H]%orb_false_iff; [done|]. by rewrite IH.
Qed.

(** After the replacement, what the replacement text includes is
    included. *)
Lemma includes_replace_first (p pat rep s : string) :
  includes pat s = true -> includes p rep = true ->
  includes p (replace_first pat rep s) = true.
Proof.
  intros Hpat Hrep. induction s as [|c s IH];
    rewrite includes_unfold in Hpat; rewrite replace_first_unfold;
    destruct (String.prefix pat _); try by apply includes_app_l.
  - done.
  - rewrite includes_unfold. apply orb_true_iff. right. by apply IH.
Qed.

Section IngestionCases.

Context `{P : Platform}.

Lemma Ingest_bind_run {A B} (f : A -> Ingest B) (ev : list IngestEvent)
    (a : A) :
  (ev, Normal a) ≫= f = (ev ++ (f a).1, (f a).2).
Proof. unfold mbind, Ingest_bind. by destruct (f a). Qed.

Lemma Ingest_bind_ret {A B} (f : A -> Ingest B) (a : A) :
  mret a ≫= f = f a.
Proof. unfold mret, Ingest_ret. rewrite Ingest_bind_run. by destruct (f a). Qed.

Lemma pipeline_bind_run {A B} (f : A -> Ingest B) (ev : list Event)
    (a : A) :
  pipeline (ev, Normal a) ≫= f = ((Pipeline <$> ev) ++ (f a).1, (f a).2).
Proof. unfold pipeline. cbn [fst snd]. apply Ingest_bind_run. Qed.

(** X19. [readAndSanitizeSvgXmlAsImage] calls [processSvg] once. On a
    failure response it returns undefined without loading an image; on
    success it returns the sanitized XML as an SVG data URL with its
    loaded size and the response's aspect ratio, and rejects when the
    image cannot be loaded; a rejected call is passed on. *)
Theorem readAndSanitizeSvgXmlAsImage_cases (appCtx : AppCtx)
    (svgXml : string) :
  (processSvg appCtx svgXml = Normal SvgFailure ->
   readAndSanitizeSvgXmlAsImage appCtx svgXml
   = ([ApiProcessSvg svgXml], Normal None))
  /\ (forall xml ratio,
         processSvg appCtx svgXml = Normal (SvgSuccess xml ratio) ->
         (forall naturalWidth imgWidth naturalHeight imgHeight,
             loadImage (asSvgDataUrl xml)
             = ImgOnLoad naturalWidth imgWidth naturalHeight imgHeight ->
             readAndSanitizeSvgXmlAsImage appCtx svgXml
             = ([ApiProcessSvg svgXml; LoadImage (asSvgDataUrl xml)],
                Normal (Some (mkResizableImage (asSvgDataUrl xml)
                                (num_or naturalWidth imgWidth)
                                (num_or naturalHeight imgHeight) ratio))))
         /\ (forall error,
                loadImage (asSvgDataUrl xml) = ImgOnError error ->
                exists e,
                  readAndSanitizeSvgXmlAsImage appCtx svgXml
                  = ([ApiProcessSvg svgXml; LoadImage (asSvgDataUrl xml)],
                     Throw e)))
  /\ (forall e,
         processSvg appCtx svgXml = Throw e ->
         readAndSanitizeSvgXmlAsImage appCtx svgXml
         = ([ApiProcessSvg svgXml], Throw e)).
Proof.
  unfold readAndSanitizeSvgXmlAsImage, deriveImageSize. split; [|split].
  - by intros ->.
  - intros xml ratio ->. split.
    + intros nw w nh h Hload. cbn. by rewrite Hload.
    + intros error Hload. cbn. rewrite Hload. by eexists.
  - by intros e ->.
Qed.

Lemma readAndSanitizeFileAsImage_string (appCtx : AppCtx) (s : string) :
  readAndSanitizeFileAsImage appCtx (inr s) =
    (url ← pipeline (sanitizeImageDataUrl appCtx s);
     match url with
     | None => mret None
     | Some url =>
         if String.eqb url "" then mret None
         else
           size ← pipeline (deriveImageSize url);
           ratio ← pipeline (maybeGetAspectRatioFromImageDataUrl appCtx url);
           mret (Some (mkResizableImage url (size_width size)
                                        (size_height size) ratio))
     end).
Proof. unfold readAndSanitizeFileAsImage. by rewrite Ingest_bind_ret. Qed.

(** X20. Given a [File], [readAndSanitizeFileAsImage] starts one
    [FileReader] and then behaves as on the data URL the reader gives;
    when the reader fails, it rejects with the reader's error and does
    nothing else. *)
Theorem reading_a_file_is_reading_its_data_url (appCtx : AppCtx)
    (file : File) :
  match file_read file with
  | FileOnLoad dataUrl =>
      readAndSanitizeFileAsImage appCtx (inl file)
      = (ReadAsDataURL (file_name file)
           :: (readAndSanitizeFileAsImage appCtx (inr dataUrl)).1,
         (readAndSanitizeFileAsImage appCtx (inr dataUrl)).2)
  | FileOnError e =>
      readAndSanitizeFileAsImage appCtx (inl file)
      = ([ReadAsDataURL (file_name file)], Throw e)
  end.
Proof.
  destruct (file_read file) as [dataUrl|e] eqn:Hread.
  - rewrite readAndSanitizeFileAsImage_string.
    unfold readAndSanitizeFileAsImage, readUploadedFileAsDataUrl.
    rewrite Hread. by rewrite Ingest_bind_run.
  - unfold readAndSanitizeFileAsImage, readUploadedFileAsDataUrl.
    by rewrite Hread.
Qed.

Lemma sanitizeImageDataUrl_not_svg (appCtx : AppCtx) (dataUrl : string) :
  (forall parsed, parseDataUrl dataUrl = Some parsed ->
                  mediaType parsed <> Some SVG_MEDIA_TYPE) ->
  sanitizeImageDataUrl appCtx dataUrl = ([], Normal (Some dataUrl)).
Proof.
  intros Hmedia. unfold sanitizeImageDataUrl.
  destruct (parseDataUrl dataUrl) as [parsed|]; [|done].
  destruct (decide _) as [Heq|]; [|done].
  by destruct (Hmedia parsed eq_refl).
Qed.

Lemma maybeGetAspectRatio_not_svg (appCtx : AppCtx) (dataUrl : string) :
  (forall parsed, parseDataUrl dataUrl = Some parsed ->
                  mediaType parsed <> Some SVG_MEDIA_TYPE) ->
  maybeGetAspectRatioFromImageDataUrl appCtx dataUrl = ([], Normal None).
Proof.
  intros Hmedia. unfold maybeGetAspectRatioFromImageDataUrl.
  destruct (parseDataUrl dataUrl) as [parsed|]; [|done].
  destruct (decide _) as [Heq|]; [|done].
  by destruct (Hmedia parsed eq_refl).
Qed.

(** X21. A non-empty data URL whose media type is not SVG passes through
    [readAndSanitizeFileAsImage] unchanged: no remote call is made, the
    image is loaded once, and the result carries the input url, the
    loaded size and no aspect ratio. *)
Theorem non_svg_data_url_passes_through (appCtx : AppCtx) (dataUrl : string)
    (naturalWidth imgWidth naturalHeight imgHeight : Z) :
  (forall parsed, parseDataUrl dataUrl = Some parsed ->
                  mediaType parsed <> Some SVG_MEDIA_TYPE) ->
  dataUrl <> "" ->
  loadImage dataUrl
  = ImgOnLoad naturalWidth imgWidth naturalHeight imgHeight ->
  readAndSanitizeFileAsImage appCtx (inr dataUrl)
  = ([Pipeline (LoadImage dataUrl)],
     Normal (Some (mkResizableImage dataUrl
                     (num_or naturalWidth imgWidth)
                     (num_or naturalHeight imgHeight) None))).
Proof.
  intros Hmedia Hne Hload. rewrite readAndSanitizeFileAsImage_string.
  rewrite sanitizeImageDataUrl_not_svg by done.
  change (pipeline ([], Normal (Some dataUrl)))
    with (mret (M := Ingest) (Some dataUrl)).
  rewrite Ingest_bind_ret.
  destruct (String.eqb_spec dataUrl ""); [done|].
  rewrite maybeGetAspectRatio_not_svg by done.
  unfold deriveImageSize. rewrite Hload. reflexivity.
Qed.


(** X23. [readAndSanitizeFileAsImage] returns undefined only when the
    sanitizer returned undefined or the empty string: an image that
    cannot be loaded is a rejection, never undefined. *)
Theorem undefined_only_from_the_sanitizer (appCtx : AppCtx)
    (dataUrl : string) (ev : list IngestEvent) :
  readAndSanitizeFileAsImage appCtx (inr dataUrl) = (ev, Normal None) ->
  (sanitizeImageDataUrl appCtx dataUrl).2 = Normal None
  \/ (sanitizeImageDataUrl appCtx dataUrl).2 = Normal (Some "").
Proof.
  rewrite readAndSanitizeFileAsImage_string.
  destruct (sanitizeImageDataUrl appCtx dataUrl) as [ev0 [[url|]|e]];
    [|by left|done].
  rewrite pipeline_bind_run.
  destruct (String.eqb_spec url "") as [->|Hne]; [by right|].
  destruct (deriveImageSize url) as [ev1 [size|e]]; [|done].
  rewrite pipeline_bind_run.
  destruct (maybeGetAspectRatioFromImageDataUrl appCtx url)
    as [ev2 [ratio|e]]; [|done].
  by rewrite pipeline_bind_run.
Qed.

(** X24. When the clipboard holds an item whose type contains "image",
    [readImageFromClipboard] does not depend on the clipboard's text. *)
Theorem clipboard_image_item_hides_text (appCtx : AppCtx)
    (items : list DataTransferItem) (text1 text2 : string)
    (item : DataTransferItem) :
  item ∈ items ->
  includes "image" (item_type item) = true ->
  readImageFromClipboard appCtx (mkDataTransfer items text1)
  = readImageFromClipboard appCtx (mkDataTransfer items text2).
Proof.
  intros Hin Himage. unfold readImageFromClipboard. cbn [dt_items].
  destruct (List.find _ items) as [found|] eqn:Hfind; [done|].
  apply list_elem_of_In in Hin.
  by rewrite (find_none _ _ Hfind item Hin) in Himage.
Qed.

Lemma readAndSanitizeSvgXmlAsImage_first_event (appCtx : AppCtx)
    (svgXml : string) :
  exists rest,
    (readAndSanitizeSvgXmlAsImage appCtx svgXml).1
    = ApiProcessSvg svgXml :: rest.
Proof.
  unfold readAndSanitizeSvgXmlAsImage, deriveImageSize.
  destruct (processSvg appCtx svgXml) as [[xml ratio|]|e]; cbn;
    [|by eexists..].
  destruct (loadImage _) as [? ? ? ?|[?|]]; by eexists.
Qed.

(** X25. When the clipboard holds no image item and a non-empty text,
    [readImageFromClipboard] logs the text it sends and sends it to
    [processSvg] first. The text sent declares an XML namespace, unless
    the clipboard's text has no [<svg] at all, in which case it is sent as
    it is. *)
Theorem pasted_svg_gets_a_namespace (appCtx : AppCtx)
    (clipboardData : DataTransfer) :
  List.find (fun x => includes "image" (item_type x))
            (dt_items clipboardData) = None ->
  dt_text_plain clipboardData <> "" ->
  exists sent rest,
    (readImageFromClipboard appCtx clipboardData).1
    = LogPastingSvg sent :: Pipeline (ApiProcessSvg sent) :: rest
    /\ (includes "xmlns=" sent = true
        \/ (includes "<svg" (dt_text_plain clipboardData) = false
            /\ sent = dt_text_plain clipboardData)).
Proof.
  intros Hfind Htext. unfold readImageFromClipboard. rewrite Hfind.
  destruct (String.eqb_spec (dt_text_plain clipboardData) ""); [done|].
  cbv zeta. set (text := dt_text_plain clipboardData).
  set (sent := if includes "xmlns=" text then text
               else replace_first "<svg" svg_with_namespace text).
  destruct (readAndSanitizeSvgXmlAsImage_first_event appCtx sent)
    as [rest Hev].
  exists sent, (Pipeline <$> rest). split.
  - destruct (readAndSanitizeSvgXmlAsImage appCtx sent) as [ev c].
    simpl in Hev. subst ev. reflexivity.
  - subst sent. destruct (includes "xmlns=" text) eqn:Hns; [by left|].
    destruct (includes "<svg" text) eqn:Hsvg.
    + left. by apply includes_replace_first.
    + right. split; [done|]. by apply replace_first_absent.
Qed.

End IngestionCases.

(** ** Walking up a DOM tree *)

Section DomWalks.

Import Dom.

Context (t : Tree).

Lemma parentElement_parentNode (n p : Node) :
  parentElement t n = Some p -> parentNode t n = Some p.
Proof.
  unfold parentElement. destruct (parentNode t n) as [q|]; [|done].
  by destruct (isElement t q).
Qed.

Lemma ancestor_depth (p n : Node) :
  ancestor t p n -> (depth t p < depth t n)%nat.
Proof.
  induction 1 as [n H|n q H _ IH].
  - by apply depth_parentNode.
  - apply depth_parentNode in H. lia.
Qed.

Lemma ancestor_trans (a b c : Node) :
  ancestor t a b -> ancestor t b c -> ancestor t a c.
Proof.
  intros Hab Hbc. induction Hbc as [n H|n q H _ IH].
  - by eapply ancestor_step.
  - eapply ancestor_step; [done|]. by apply IH.
Qed.

Lemma elementAncestor_ancestor (p n : Node) :
  elementAncestor t p n -> ancestor t p n.
Proof.
  induction 1 as [n H|n q H _ IH].
  - apply ancestor_parent. by apply parentElement_parentNode.
  - eapply ancestor_step; [by apply parentElement_parentNode|done].
Qed.

Lemma isDescendant_loop_spec (parent : Node) (fuel : nat)
    (node : option Node) :
  (forall n, node = Some n -> (depth t n < fuel)%nat) ->
  exists b,
    isDescendant_loop t parent fuel node = Some b
    /\ (b = true <->
        exists n, node = Some n /\ (n = parent \/ ancestor t parent n)).
Proof.
  revert node. induction fuel as [|fuel IH]; intros [n|] Hfuel.
  - specialize (Hfuel n eq_refl). lia.
  - exists false. split; [done|]. split; [done|]. by intros (n & ? & _).
  - simpl. destruct (decide (n = parent)) as [->|Hne].
    + exists true. split; [done|]. split; [|done]. intros _. eauto.
    + destruct (IH (parentNode t n)) as (b & Hb & Hiff).
      { intros q Hq. specialize (Hfuel n eq_refl).
        apply depth_parentNode in Hq. lia. }
      exists b. split; [done|]. rewrite Hiff. split.
      * intros (q & Hq & [->|Hanc]); exists n; split; try done; right.
        -- by apply ancestor_parent.
        -- by eapply ancestor_step.
      * intros (n' & [= <-] & [?|Hanc]); [done|].
        inversion Hanc as [? Hq|? q Hq Hanc']; subst; eauto.
  - exists false. split; [done|]. split; [done|]. by intros (n & ? & _).
Qed.

(** X26. [isDescendant] terminates on every tree and returns true
    exactly when [parent] is the parent of [child] or of one of its
    ancestors. *)
Theorem isDescendant_is_ancestor (parent child : Node) :
  exists b,
    isDescendant t parent child = Some b
    /\ (b = true <-> ancestor t parent child).
Proof.
  destruct (isDescendant_loop_spec parent (depth t child)
              (parentNode t child)) as (b & Hb & Hiff).
  { intros n Hn. by apply depth_parentNode. }
  exists b. split; [done|]. rewrite Hiff. split.
  - intros (n & Hn & [->|Hanc]).
    + by apply ancestor_parent.
    + by eapply ancestor_step.
  - intros Hanc. inversion Hanc as [? Hq|? q Hq Hanc']; subst; eauto.
Qed.

Lemma isDescendant_true (parent child : Node) :
  isDescendant t parent child = Some true <-> ancestor t parent child.
Proof.
  destruct (isDescendant_loop_spec parent (depth t child)
              (parentNode t child)) as (b & Hb & Hiff).
  { intros n Hn. by apply depth_parentNode. }
  unfold isDescendant. rewrite Hb. split.
  - intros [= ->]. destruct (proj1 Hiff eq_refl) as (n & Hn & [->|Hanc]).
    + by apply ancestor_parent.
    + by eapply ancestor_step.
  - intros Hanc. f_equal. apply Hiff.
    inversion Hanc as [? Hq|? q Hq Hanc']; subst; eauto.
Qed.

Lemma isDescendant_total (parent child : Node) :
  isDescendant t parent child <> None.
Proof.
  destruct (isDescendant_loop_spec parent (depth t child)
              (parentNode t child)) as (b & Hb & _).
  { intros n Hn. by apply depth_parentNode. }
  unfold isDescendant. by rewrite Hb.
Qed.

(** X27. [isDescendant] is a strict order on the nodes of a tree: no
    node is its own descendant, two nodes are never descendants of each
    other, and a descendant of a descendant is a descendant. *)
Theorem isDescendant_strict_order (a b c : Node) :
  isDescendant t a a = Some false
  /\ (isDescendant t a b = Some true -> isDescendant t b a = Some false)
  /\ (isDescendant t a b = Some true -> isDescendant t b c = Some true ->
      isDescendant t a c = Some true).
Proof.
  assert (forall x y, ~ ancestor t x y -> isDescendant t x y = Some false)
    as Hfalse.
  { intros x y Hn. pose proof (isDescendant_total x y) as Htot.
    destruct (isDescendant t x y) as [[|]|] eqn:E; [|done..].
    by apply isDescendant_true in E. }
  split; [|split].
  - apply Hfalse. intros H%ancestor_depth. lia.
  - intros Hab%isDescendant_true. apply Hfalse.
    intros Hba%ancestor_depth. apply ancestor_depth in Hab. lia.
  - rewrite !isDescendant_true. apply ancestor_trans.
Qed.

Lemma elementAncestor_depth (p n : Node) :
  elementAncestor t p n -> (depth t p < depth t n)%nat.
Proof. intros H. by apply ancestor_depth, elementAncestor_ancestor. Qed.

Lemma hasAncestorElement_loop_spec (pred : Node -> bool) (fuel : nat)
    (n : Node) :
  (depth t n < fuel)%nat ->
  exists r,
    hasAncestorElement_loop t pred fuel (Some n) = Some r
    /\ match r with
       | Some a =>
           pred a = true
           /\ (a = n \/ elementAncestor t a n)
           /\ forall m, (m = n \/ elementAncestor t m n) ->
                        elementAncestor t a m -> pred m = false
       | None =>
           forall m, (m = n \/ elementAncestor t m n) -> pred m = false
       end.
Proof.
  revert n. induction fuel as [|fuel IH]; intros n Hfuel; [lia|].
  simpl. destruct (pred n) eqn:Hpred.
  - exists (Some n). split; [done|]. split; [done|]. split; [by left|].
    intros m [->|Hm] Ha.
    + apply elementAncestor_depth in Ha. lia.
    + apply elementAncestor_depth in Ha, Hm. lia.
  - destruct (parentElement t n) as [q|] eqn:Hq.
    + destruct (IH q) as (r & Hr & Hspec).
      { apply parentElement_parentNode, depth_parentNode in Hq. lia. }
      assert (forall m, elementAncestor t m n ->
                m = q \/ elementAncestor t m q) as Hinv.
      { intros m Hm. inversion Hm as [? H|? q' H Hm']; subst;
          rewrite Hq in H; injection H as <-; eauto. }
      exists r. split; [done|]. destruct r as [a|].
      * destruct Hspec as (Ha & Hchain & Hnear). split; [done|]. split.
        -- right. destruct Hchain as [->|Hchain].
           ++ by apply elementAncestor_parent.
           ++ by eapply elementAncestor_step.
        -- intros m [->|Hm] Ham; [done|]. apply Hnear; [|done].
           by apply Hinv.
      * intros m [->|Hm]; [done|]. apply Hspec. by apply Hinv.
    + exists None. split; [by destruct fuel|].
      intros m [->|Hm]; [done|].
      inversion Hm as [? H|? q' H Hm']; subst; by rewrite Hq in H.
Qed.

(** X28. [hasAncestorElement] terminates and returns the nearest node
    that satisfies [pred] among the target and its element ancestors:
    the node returned satisfies [pred] and no node below it on the way
    does; it returns false only when none of them satisfies [pred]. *)
Theorem hasAncestorElement_nearest (target : Node) (pred : Node -> bool) :
  exists r,
    hasAncestorElement t target pred = Some r
    /\ match r with
       | Some a =>
           pred a = true
           /\ (a = target \/ elementAncestor t a target)
           /\ forall m, (m = target \/ elementAncestor t m target) ->
                        elementAncestor t a m -> pred m = false
       | None =>
           forall m, (m = target \/ elementAncestor t m target) ->
                     pred m = false
       end.
Proof. apply hasAncestorElement_loop_spec. lia. Qed.

Lemma getClippingParent_rec_loop (fuel1 fuel2 : nat) (e : Node) :
  (depth t e < fuel1)%nat ->
  (forall p, parentElement t e = Some p -> (depth t p < fuel2)%nat) ->
  getClippingParent_rec t fuel1 (Some e) =
    undefined_for_false <$>
      hasAncestorElement_loop t
        (fun n => offsetHeight t n <? scrollHeight t n)
        fuel2 (parentElement t e).
Proof.
  revert fuel2 e. induction fuel1 as [|fuel1 IH]; intros fuel2 e H1 H2; [lia|].
  simpl. destruct (parentElement t e) as [p|] eqn:Hp; simpl.
  - specialize (H2 p eq_refl).
    destruct fuel2 as [|fuel2]; [lia|]. simpl.
    destruct (offsetHeight t p <? scrollHeight t p) eqn:Hclip; [done|].
    pose proof Hp as Hd.
    apply parentElement_parentNode, depth_parentNode in Hd.
    destruct fuel1 as [|fuel1]; [lia|].
    apply IH; [lia|]. intros q Hq.
    apply parentElement_parentNode, depth_parentNode in Hq. lia.
  - by destruct fuel1, fuel2.
Qed.

(** X29. [getClippingParent] terminates on every element. When the
    element has a parent element, [hasAncestorElement] from that parent
    with the test [scrollHeight > offsetHeight] terminates too, and
    [getClippingParent] returns the element it returns, and [undefined]
    where it returns [false]; when the element has no parent element,
    [getClippingParent] returns [undefined]. *)
Theorem getClippingParent_hasAncestorElement (element : Node) :
  match parentElement t element with
  | Some p =>
      exists r,
        hasAncestorElement t p
          (fun n => offsetHeight t n <? scrollHeight t n) = Some r
        /\ getClippingParent t (Some element) = Some (undefined_for_false r)
  | None => getClippingParent t (Some element) = Some Undefined
  end.
Proof.
  unfold getClippingParent, hasAncestorElement. simpl from_option.
  rewrite (getClippingParent_rec_loop _
             (S (from_option (depth t) O (parentElement t element))))
    by (try lia; intros p ->; simpl; lia).
  destruct (parentElement t element) as [p|]; [|reflexivity].
  simpl from_option.
  destruct (hasAncestorElement_loop_spec
              (fun n => offsetHeight t n <? scrollHeight t n)
              (S (depth t p)) p) as (r & Hr & _); [lia|].
  exists r. split; [done|]. by rewrite Hr.
Qed.

End DomWalks.

(** * The further properties on sample inputs *)

Section FurtherSamples.

Import Demo Fixtures.

Lemma isAnimatedGif_truncated_witness :
  isAnimatedGif truncatedGifUrl = Throw RangeError.
Proof.
  eapply isAnimatedGif_truncated; [vm_compute; reflexivity|vm_compute; lia].
Defined.

Lemma extensionCheck_bytes_witness :
  extensionCheck 0x2C 1 = true <->
  (Z.testbit 0x2C 0 = true \/ Z.testbit 0x2C 5 = true)
  /\ 1 <> 0 /\ 1 <> 2 /\ 1 <> 4 /\ 1 <> 6.
Proof. apply extensionCheck_bytes; lia. Defined.

Lemma isAnimatedGif_check_fails_witness :
  isAnimatedGif gif87Url = Normal false.
Proof.
  eapply (isAnimatedGif_check_fails _ _ 0x2C 0); vm_compute; reflexivity.
Defined.

Lemma isAnimatedGif_netscape_witness :
  isAnimatedGif loopingGifUrl = Normal true.
Proof.
  eapply (isAnimatedGif_netscape _ _ 0x80); vm_compute; reflexivity.
Defined.

Lemma isAnimatedGif_ignores_header_witness :
  isAnimatedGif loopingGifUrl = isAnimatedGif relabelledUrl.
Proof.
  eapply isAnimatedGif_ignores_header; vm_compute; reflexivity.
Defined.

Lemma isAnimatedGif_ignores_prefix_witness :
  isAnimatedGif ("data:image/gif;base64" +:+ "," +:+ "R0lGODlh")
  = isAnimatedGif ("data:text/plain" +:+ "," +:+ "R0lGODlh").
Proof. apply isAnimatedGif_ignores_prefix; reflexivity. Defined.

Lemma deriveImageAssetTypeAndUri_notifies_on_undefined_witness :
  exists message,
    [NotificationError "Error loading image"] = [NotificationError message].
Proof.
  refine (deriveImageAssetTypeAndUri_notifies_on_undefined (P := offline)
            (mkResizableImage "hello" 24 24 None) None
            [NotificationError "Error loading image"] (Normal None) _).
  vm_compute. reflexivity.
Defined.

Lemma classification_without_decoding_witness :
  deriveImageAssetTypeAndUri (P := offline)
    (mkResizableImage undecodableSvgUrl 24 24 None) (Some Picture)
  = ([], Normal (Some (mkAssetTypeAndUri undecodableSvgUrl Picture None)))
  /\ deriveImageAssetTypeAndUri (P := offline)
       (mkResizableImage pngUrl 24 24 None) (Some Icon)
     = ([NotificationError "Can only use svg images as icons"],
        Normal None).
Proof.
  split.
  - eapply (classification_without_decoding (P := offline)
              (mkResizableImage undecodableSvgUrl 24 24 None) (Some Picture));
      [vm_compute; reflexivity|by left].
  - eapply (classification_without_decoding (P := offline)
              (mkResizableImage pngUrl 24 24 None) (Some Icon));
      [vm_compute; reflexivity|right; vm_compute; intros [=]].
Defined.

Lemma classification_throws_only_when_decoding_witness :
  None <> Some Picture
  /\ exists parsed,
       parse_data_url undecodableSvgUrl = Some parsed
       /\ contentType parsed = Some svg_media_type
       /\ (Base64.atob (data parsed) = Throw InvalidCharacterError
           \/ exists xml, Base64.atob (data parsed) = Normal xml
                          /\ parse_svg_xml xml = Throw InvalidCharacterError).
Proof.
  refine (classification_throws_only_when_decoding (P := offline)
            (mkResizableImage undecodableSvgUrl 24 24 None) None
            [] InvalidCharacterError _).
  vm_compute. reflexivity.
Defined.

Lemma classification_result_invariants_witness :
  let res := mkAssetTypeAndUri pngUrl Picture None in
  (type res = Picture -> dataUri res = pngUrl /\ iconColor res = None)
  /\ iconColor res <> Some "currentcolor"
  /\ (@None ImageAssetType = Some Icon -> type res = Icon)
  /\ (@None ImageAssetType = Some Picture -> type res = Picture).
Proof.
  refine (classification_result_invariants (P := offline)
            (mkResizableImage pngUrl 24 24 None) None [] _ _).
  vm_compute. reflexivity.
Defined.

Lemma svg_without_request_decision_witness :
  (exists res,
      deriveImageAssetTypeAndUri (P := offline)
        (mkResizableImage twoColorsUrl 24 24 None) None
      = ([], Normal (Some res))
      /\ (type res = Icon <->
          "currentcolor" ∈ gather_svg_colors twoColors
          \/ gather_svg_colors twoColors = ∅
          \/ exists c, gather_svg_colors twoColors = {[ c ]}
                       /\ String.prefix "url" c = false))
  /\ deriveImageAssetTypeAndUri (P := offline)
       (mkResizableImage escapedTwoColorsUrl 24 24 None) None
     = ([], Throw InvalidCharacterError).
Proof.
  split.
  - refine (svg_without_request_decision (P := offline)
              (mkResizableImage twoColorsUrl 24 24 None)
              (mkParsedDataUrl (Some "image/svg+xml") (Some "image/svg+xml")
                 true (String.substring 26 200 twoColorsUrl))
              _ _); vm_compute; reflexivity.
  - refine (svg_without_request_decision (P := offline)
              (mkResizableImage escapedTwoColorsUrl 24 24 None)
              (mkParsedDataUrl (Some "image/svg+xml") (Some "image/svg+xml")
                 false (String.substring 19 200 escapedTwoColorsUrl))
              _ _); vm_compute; reflexivity.
Defined.

Lemma icon_request_on_svg_witness :
  (exists uri color,
      deriveImageAssetTypeAndUri (P := offline)
        (mkResizableImage oneColorUrl 24 24 None) (Some Icon)
      = ([], Normal (Some (mkAssetTypeAndUri uri Icon color)))
      /\ (forall c, gather_svg_colors oneColor = {[ c ]} ->
                    c <> "currentcolor" ->
                    color = Some c
                    /\ uri = as_svg_data_url (serialize
                               (clear_explicit_colors
                                  (convert_svg_to_text_sized oneColor))))
      /\ ((2 <= size (gather_svg_colors oneColor))%nat -> color = None))
  /\ deriveImageAssetTypeAndUri (P := offline)
       (mkResizableImage undecodableSvgUrl 24 24 None) (Some Icon)
     = ([], Throw InvalidCharacterError).
Proof.
  split.
  - refine (icon_request_on_svg (P := offline)
              (mkResizableImage oneColorUrl 24 24 None)
              (mkParsedDataUrl (Some "image/svg+xml") (Some "image/svg+xml")
                 true (String.substring 26 200 oneColorUrl))
              _ _); vm_compute; reflexivity.
  - refine (icon_request_on_svg (P := offline)
              (mkResizableImage undecodableSvgUrl 24 24 None)
              (mkParsedDataUrl (Some "image/svg+xml") (Some "image/svg+xml")
                 true "***")
              _ _); vm_compute; reflexivity.
Defined.

Lemma tryDownscale_success_witness :
  tryDownscale (P := online) (mkResizableImage pngUrl 5000 2000 None)
  = ([CallDownscale pngUrl 4096 0;
      LoadImage smallerPngUrl;
      LogDownscaled 34 30 5000 2000 4096 1638],
     (mkResizableImage smallerPngUrl 4096 1638 None, Normal tt)).
Proof.
  refine (tryDownscale_success (P := online)
            (mkResizableImage pngUrl 5000 2000 None) smallerPngUrl
            0 4096 1638 1638 _ _ _).
  - simpl. lia.
  - reflexivity.
  - reflexivity.
Defined.

Lemma downscale_request_bounds_witness :
  pngUrl = pngUrl
  /\ 0 <= 4096 <= 4096 /\ 0 <= 0 <= 4096
  /\ (4096 = 0 \/ 0 = 0)
  /\ (4096 = 0 /\ 0 = 0 -> 5000 = 0 /\ 2000 = 0).
Proof.
  refine (downscale_request_bounds (P := online)
            (mkResizableImage pngUrl 5000 2000 None) pngUrl 4096 0 _ _ _).
  - simpl. lia.
  - simpl. lia.
  - vm_compute. apply list_elem_of_here.
Defined.

Lemma maybeUploadImage_picture_witness :
  maybeUploadImage (P := offline) storing
    (mkResizableImage pngUrl 800 600 (Some (4 # 3)%Q)) None
    (Some (AString "photo"))
  = ([ApiUploadImageFile (mkBlob [137; 80; 78; 71; 13; 10; 26; 10]
                                 "image/png");
      NotificationWarn "Image was compressed"],
     Normal (mkUploadOutcome
       (Some (mkResizableImage "https://img.example/1.png" 640 600
                               (Some (4 # 3)%Q)))
       (Some (mkImageAssetOpts Picture None (Some "photo"))))).
Proof.
  apply (maybeUploadImage_picture (P := offline) storing
           (mkResizableImage pngUrl 800 600 (Some (4 # 3)%Q)) None
           (Some (AString "photo")) []
           (mkAssetTypeAndUri pngUrl Picture None)
           (mkBlob [137; 80; 78; 71; 13; 10; 26; 10] "image/png")
           (mkUploadedImage "https://img.example/1.png" (Some 640) None
                            None (Some "Image was compressed")));
    vm_compute; reflexivity.
Defined.

Lemma maybeUploadImage_throws_witness :
  deriveImageAssetTypeAndUri (P := offline)
    (mkResizableImage pngUrl 800 600 None) None
  = ([ApiUploadImageFile (mkBlob [137; 80; 78; 71; 13; 10; 26; 10]
                                 "image/png")],
     Throw (Thrown "offline"))
  \/ exists ev0 res,
       deriveImageAssetTypeAndUri (P := offline)
         (mkResizableImage pngUrl 800 600 None) None
       = (ev0, Normal (Some res))
       /\ type res = Picture
       /\ ((image_data_uri_to_blob (dataUri res) = Throw (Thrown "offline")
            /\ [ApiUploadImageFile (mkBlob [137; 80; 78; 71; 13; 10; 26; 10]
                                           "image/png")] = ev0)
           \/ exists blob,
                image_data_uri_to_blob (dataUri res) = Normal blob
                /\ uploadImageFile failing blob = Throw (Thrown "offline")
                /\ [ApiUploadImageFile (mkBlob [137; 80; 78; 71; 13; 10; 26; 10]
                                               "image/png")]
                   = ev0 ++ [ApiUploadImageFile blob]).
Proof.
  refine (maybeUploadImage_throws (P := offline) failing
            (mkResizableImage pngUrl 800 600 None) None None _ _ _).
  vm_compute. reflexivity.
Defined.

Lemma readAndSanitizeSvgXmlAsImage_cases_witness :
  readAndSanitizeSvgXmlAsImage (P := online) failing "<svg/>"
  = ([ApiProcessSvg "<svg/>"], Normal None)
  /\ readAndSanitizeSvgXmlAsImage (P := online) cleaning "<svg/>"
     = ([ApiProcessSvg "<svg/>";
         LoadImage (as_svg_data_url
                      "<svg xmlns='http://www.w3.org/2000/svg'/>")],
        Normal (Some (mkResizableImage
                        (as_svg_data_url
                           "<svg xmlns='http://www.w3.org/2000/svg'/>")
                        (num_or 0 4096) (num_or 1638 1638) (Some 1%Q)))).
Proof.
  split.
  - apply (proj1 (readAndSanitizeSvgXmlAsImage_cases (P := online)
                    failing "<svg/>")). reflexivity.
  - apply (proj1 (proj1 (proj2 (readAndSanitizeSvgXmlAsImage_cases
                                  (P := online) cleaning "<svg/>"))
                    _ _ eq_refl)). reflexivity.
Defined.

Lemma non_svg_data_url_passes_through_witness :
  readAndSanitizeFileAsImage (P := online) failing (inr pngUrl)
  = ([Pipeline (LoadImage pngUrl)],
     Normal (Some (mkResizableImage pngUrl (num_or 0 4096)
                                    (num_or 1638 1638) None))).
Proof.
  apply (non_svg_data_url_passes_through (P := online) failing pngUrl).
  - intros parsed Hparsed. vm_compute in Hparsed.
    injection Hparsed as <-. intros [=].
  - intros [=].
  - reflexivity.
Defined.


Lemma undefined_only_from_the_sanitizer_witness :
  (sanitizeImageDataUrl (P := online) failing oneColorUrl).2 = Normal None
  \/ (sanitizeImageDataUrl (P := online) failing oneColorUrl).2
     = Normal (Some "").
Proof.
  refine (undefined_only_from_the_sanitizer (P := online) failing
            oneColorUrl _ _).
  vm_compute. reflexivity.
Defined.

Lemma clipboard_image_item_hides_text_witness :
  readImageFromClipboard (P := online) failing (pastedImage "")
  = readImageFromClipboard (P := online) failing (pastedImage "<svg/>").
Proof.
  apply (clipboard_image_item_hides_text (P := online) failing _ _ _
           (mkDataTransferItem "image/png" (Some pngFile))).
  - apply list_elem_of_further, list_elem_of_here.
  - reflexivity.
Defined.

Lemma pasted_svg_gets_a_namespace_witness :
  exists sent rest,
    (readImageFromClipboard (P := online) failing pastedText).1
    = LogPastingSvg sent :: Pipeline (ApiProcessSvg sent) :: rest
    /\ (includes "xmlns=" sent = true
        \/ (includes "<svg" (dt_text_plain pastedText) = false
            /\ sent = dt_text_plain pastedText)).
Proof.
  apply (pasted_svg_gets_a_namespace (P := online) failing pastedText).
  - reflexivity.
  - intros [=].
Defined.

Lemma isDescendant_strict_order_witness :
  Dom.isDescendant Dom.sample 1%nat 1%nat = Some false
  /\ Dom.isDescendant Dom.sample 3%nat 1%nat = Some false
  /\ Dom.isDescendant Dom.sample 1%nat 4%nat = Some true.
Proof.
  destruct (isDescendant_strict_order Dom.sample 1%nat 3%nat 4%nat)
    as (Hirrefl & Hasym & Htrans).
  split; [exact Hirrefl|]. split.
  - apply Hasym. reflexivity.
  - apply Htrans; reflexivity.
Defined.

End FurtherSamples.
